(** * gold-service: the poll / cache / serve loop of [main.go]

    A shallow embedding of [fetchAndCache], [handleGold18k], [envOrDefault]
    and the configuration part of [main], with the properties of the
    service stated and proved over it.

    - Go's [float64] is IEEE 754 binary64: [spec_float] of the standard
      library with [prec = 53] and [emax = 1024].
    - Go's [int64] and [time.Duration] are [Z] with the wrap-around
      written out.
    - The [gold_prices] table (primary key [symbol]) is a
      [gmap string Row]. *)

From Stdlib Require Import ZArith String List Bool Lia Ascii.
From Stdlib Require Import SpecFloat DecimalString DecimalPos.
From stdpp Require Import gmap strings.

Local Open Scope string_scope.
Local Open Scope Z_scope.

(** ** float64 *)

Module Float64.

Definition prec : Z := 53.
Definition emax : Z := 1024.

Abbreviation float64 := spec_float.

(** A float64 value held by the program is a canonical binary64. *)
Definition valid (x : float64) : bool := valid_binary prec emax x.

Definition mul (x y : float64) : float64 := SFmul prec emax x y.

(** The operator [==] on float64: both zeros are equal, NaN equals nothing. *)
Definition eqb (x y : float64) : bool := SFeqb x y.
Definition ltb (x y : float64) : bool := SFltb x y.
Definition leb (x y : float64) : bool := SFleb x y.

(** The float64 nearest to an integer (how an integer literal, or a JSON
    number with an integer value, becomes a float64). *)
Definition of_Z (n : Z) : float64 := binary_normalize prec emax n 0 false.

Definition zero : float64 := S754_zero false.

Definition div (x y : float64) : float64 := SFdiv prec emax x y.

(** The untyped constant [10] converted to float64: 1.25 * 2^3. *)
Definition ten : float64 := Eval vm_compute in of_Z 10.

(** 1 and 2^63, for the bounds of the conversion to int64. *)
Definition one : float64 := S754_finite false 4503599627370496 (-52).
Definition two63 : float64 := S754_finite false 4503599627370496 11.

End Float64.

Import Float64.

(** ** int64 *)

Definition int64_min : Z := - 2 ^ 63.
Definition int64_max : Z := 2 ^ 63 - 1.

Definition in_int64 (z : Z) : bool := (int64_min <=? z) && (z <=? int64_max).

(** Two's-complement wrap-around of a mathematical integer into int64. *)
Definition wrap64 (z : Z) : Z := (z + 2 ^ 63) mod 2 ^ 64 - 2 ^ 63.

(** The integer part of a finite float64, rounded toward zero. *)
Definition trunc_float64 (x : float64) : option Z :=
  match x with
  | S754_zero _ => Some 0
  | S754_finite s m e =>
      let a := if 0 <=? e then Z.shiftl (Z.pos m) e else Z.shiftr (Z.pos m) (- e) in
      Some (if s then - a else a)
  | S754_infinity _ | S754_nan => None
  end.

(** The conversion [int64(x)] of a float64 [x]: the fraction is discarded
    (truncation toward zero).  When the truncated value does not fit in
    int64, or [x] is an infinity or a NaN, the Go specification leaves the
    result to the implementation; [indefinite] stands for that value (it is
    [int64_min] on amd64). *)
Definition int64_of_float64 (indefinite : float64 -> Z) (x : float64) : Z :=
  match trunc_float64 x with
  | Some z => if in_int64 z then z else indefinite x
  | None => indefinite x
  end.

Definition amd64_indefinite (_ : float64) : Z := int64_min.

(** ** The package [time] (the part the service uses)

    A [Time] is an instant with nanosecond precision, counted from the zero
    [Time] (January 1, year 1, 00:00:00 UTC).  A [Duration] is an int64
    number of nanoseconds. *)

Module time.

Definition Time : Type := Z.
Definition Duration : Type := Z.

Definition Nanosecond : Duration := 1.
Definition Second : Duration := 1000000000 * Nanosecond.
Definition Minute : Duration := 60 * Second.

Definition minDuration : Duration := int64_min.
Definition maxDuration : Duration := int64_max.

(** [Time{}], which [time.Parse] returns together with its error. *)
Definition zero : Time := 0.

(** [t.Sub(u)]: the duration [t - u], or the largest (smallest) duration
    when the difference exceeds it. *)
Definition Sub (t u : Time) : Duration :=
  Z.max minDuration (Z.min maxDuration (t - u)).

End time.

(** What the Go runtime and its library decide, and the service takes as
    given: the value of an out-of-range float-to-integer conversion, and the
    RFC 3339 layout of a [Time] in both directions. *)
Class GoRuntime := {
  int64_indefinite : float64 -> Z;
  (** [t.UTC().Format(time.RFC3339)] *)
  time_Format_RFC3339 : time.Time -> string;
  (** [time.Parse(time.RFC3339, s)], [None] for the error *)
  time_Parse_RFC3339 : string -> option time.Time
}.

(** ** Data model *)

Module GoldPrice.
Record t := { Name : string; Price : Z; FetchedAt : string; Stale : bool }.
End GoldPrice.

Module BrsApiItem.
Record t := { Symbol : string; Name : string; Price : float64 }.
End BrsApiItem.

Module BrsApiResponse.
Record t := { Gold : list BrsApiItem.t }.
End BrsApiResponse.

(** A row of the table [gold_prices]; the primary key [symbol] is the key
    of the map. *)
Record Row := { name : string; price_rial : Z; fetched_at : string }.

Abbreviation Table := (gmap string Row).

(** The errors [fetchAndCache] returns, one constructor per [fmt.Errorf];
    [cause] is the text of the wrapped error. *)
Inductive error :=
| ErrCreatingRequest (cause : string)
| ErrHTTPRequest (cause : string)
| ErrAPIStatus (code : Z)
| ErrJSONDecode (cause : string)
| ErrNotFound
| ErrDBUpsert (cause : string).

(** [err.Error()] *)
Definition error_text (e : error) : string :=
  match e with
  | ErrCreatingRequest cause => "creating request failed: " ++ cause
  | ErrHTTPRequest cause => "HTTP request failed: " ++ cause
  | ErrAPIStatus code => "API returned status " ++ NilZero.string_of_int (Z.to_int code)
  | ErrJSONDecode cause => "JSON decode failed: " ++ cause
  | ErrNotFound => "IR_GOLD_18K not found in API response"
  | ErrDBUpsert cause => "DB upsert failed: " ++ cause
  end.

(** What the process does to the outside, in order. *)
Inductive Event :=
| EvLog (line : string)
| EvHTTPGet (url userAgent : string)
| EvExecUpsert (symbol : string) (row : Row).

(** The package-level variables, and the trace of effects. *)
Record State := {
  pollMu : bool;               (* true: the mutex is held *)
  database : Table;
  trace : list Event
}.

Definition set_pollMu (b : bool) (st : State) : State :=
  {| pollMu := b; database := database st; trace := trace st |}.
Definition set_database (d : Table) (st : State) : State :=
  {| pollMu := pollMu st; database := d; trace := trace st |}.
Definition emit (ev : Event) (st : State) : State :=
  {| pollMu := pollMu st; database := database st; trace := trace st ++ [ev] |}.

(** What the environment answers during one call of [fetchAndCache]. *)
Inductive Decoded :=
| DecodeError (cause : string)
| DecodeOk (apiResp : BrsApiResponse.t).

Inductive DoResult :=
| DoError (cause : string)
| DoResponse (StatusCode : Z) (body : Decoded).

Record World := {
  NewRequest_err : option string;   (* http.NewRequest *)
  Do : DoResult;                    (* client.Do and the decoding of its body *)
  Exec_err : option string;         (* database.Exec of the upsert *)
  Now : time.Time                   (* time.Now() *)
}.

(** ** [fetchAndCache] *)

(** The verb [%d] of [fmt] on an int64. *)
Definition fmt_d (z : Z) : string := NilZero.string_of_int (Z.to_int z).

Definition skip_line : string :=
  "[poller] Previous fetch still in progress, skipping".

Definition updated_line (name : string) (priceRial : Z) : string :=
  "[poller] Updated gold_18k: " ++ name ++ " = " ++ fmt_d priceRial ++ " Rial".

Definition api_url (apiKey : string) : string :=
  "https://BrsApi.ir/Api/Market/Gold_Currency.php?key=" ++ apiKey.

Definition user_agent : string :=
  "Mozilla/5.0 (Windows NT 10.0; Win64; x64) AppleWebKit/537.36 (KHTML, like Gecko) Chrome/131.0.0.0 Safari/537.36".

Definition fallback_name : string := "طلای 18 عیار".

Definition http_StatusOK : Z := 200.
Definition http_StatusServiceUnavailable : Z := 503.

(** The loop of lines 203-209: the first item whose symbol is
    [IR_GOLD_18K], [None] for the nil pointer. *)
Fixpoint find_gold18k (gold : list BrsApiItem.t) : option BrsApiItem.t :=
  match gold with
  | [] => None
  | item :: rest =>
      if String.eqb (BrsApiItem.Symbol item) "IR_GOLD_18K" then Some item
      else find_gold18k rest
  end.

(** Where a call of [fetchAndCache] stands once it has run up to its one
    blocking point, [client.Do]. *)
Inductive Entered :=
| Returned (err : option error)
| AwaitingDo.

Section Service.
Context {RT : GoRuntime}.

(** Lines 172-187: the overlap guard, the request, and the start of
    [client.Do].  The deferred [pollMu.Unlock()] runs on the early return. *)
Definition fetchAndCache_enter (apiKey : string) (w : World) (st : State)
  : State * Entered :=
  if pollMu st then
    (emit (EvLog skip_line) st, Returned None)
  else
    let st := set_pollMu true st in
    match NewRequest_err w with
    | Some cause => (set_pollMu false st, Returned (Some (ErrCreatingRequest cause)))
    | None => (emit (EvHTTPGet (api_url apiKey) user_agent) st, AwaitingDo)
    end.

(** Lines 187-239: from the answer of [client.Do] to the return.  The
    deferred [pollMu.Unlock()] runs on every path. *)
Definition fetchAndCache_resume (w : World) (st : State) : State * option error :=
  match Do w with
  | DoError cause => (set_pollMu false st, Some (ErrHTTPRequest cause))
  | DoResponse StatusCode body =>
      if negb (StatusCode =? http_StatusOK) then
        (set_pollMu false st, Some (ErrAPIStatus StatusCode))
      else
        match body with
        | DecodeError cause => (set_pollMu false st, Some (ErrJSONDecode cause))
        | DecodeOk apiResp =>
            match find_gold18k (BrsApiResponse.Gold apiResp) with
            | None => (set_pollMu false st, Some ErrNotFound)
            | Some gold18k =>
                if Float64.eqb (BrsApiItem.Price gold18k) Float64.zero then
                  (set_pollMu false st, Some ErrNotFound)
                else
                  let priceRial :=
                    int64_of_float64 int64_indefinite
                      (Float64.mul (BrsApiItem.Price gold18k) ten) in
                  let name :=
                    if String.eqb (BrsApiItem.Name gold18k) EmptyString
                    then fallback_name else BrsApiItem.Name gold18k in
                  let now := time_Format_RFC3339 (Now w) in
                  let row := {| name := name; price_rial := priceRial; fetched_at := now |} in
                  let st := emit (EvExecUpsert "gold_18k" row) st in
                  match Exec_err w with
                  | Some cause => (set_pollMu false st, Some (ErrDBUpsert cause))
                  | None =>
                      let st := set_database (<["gold_18k" := row]> (database st)) st in
                      let st := emit (EvLog (updated_line name priceRial)) st in
                      (set_pollMu false st, None)
                  end
            end
        end
  end.

Definition fetchAndCache (apiKey : string) (w : World) (st : State)
  : State * option error :=
  match fetchAndCache_enter apiKey w st with
  | (st, Returned err) => (st, err)
  | (st, AwaitingDo) => fetchAndCache_resume w st
  end.

End Service.

(** ** A concrete runtime

    The RFC 3339 layout of the package [time], for instants in the years
    0001 to 9999, and the amd64 conversion.  The theorems below hold for
    every [GoRuntime]; this one makes them run. *)

(** The value of a decimal digit, [None] for any other character. *)
Definition digit (c : ascii) : option Z :=
  let n := Z.of_nat (nat_of_ascii c) in
  if (48 <=? n) && (n <=? 57) then Some (n - 48) else None.

Module RFC3339.

Definition secondsPerDay : Z := 86400.

Definition isLeap (year : Z) : bool :=
  (year mod 4 =? 0) && (negb (year mod 100 =? 0) || (year mod 400 =? 0)).

Definition daysIn (month year : Z) : Z :=
  if month =? 2 then (if isLeap year then 29 else 28)
  else if (month =? 4) || (month =? 6) || (month =? 9) || (month =? 11) then 30
  else 31.

(** Days from 0001-01-01 to the given civil date. *)
Definition days_of_civil (year month day : Z) : Z :=
  let y := if month <=? 2 then year - 1 else year in
  let era := y / 400 in
  let yoe := y mod 400 in
  let mp := if 2 <? month then month - 3 else month + 9 in
  let doy := (153 * mp + 2) / 5 + day - 1 in
  let doe := yoe * 365 + yoe / 4 - yoe / 100 + doy in
  era * 146097 + doe - 306.

(** The civil date of a day counted from 0001-01-01. *)
Definition civil_of_days (days : Z) : Z * Z * Z :=
  let z := days + 306 in
  let era := z / 146097 in
  let doe := z mod 146097 in
  let yoe := (doe - doe / 1460 + doe / 36524 - doe / 146096) / 365 in
  let doy := doe - (365 * yoe + yoe / 4 - yoe / 100) in
  let mp := (5 * doy + 2) / 153 in
  let day := doy - (153 * mp + 2) / 5 + 1 in
  let month := if mp <? 10 then mp + 3 else mp - 9 in
  let year := yoe + era * 400 + (if month <=? 2 then 1 else 0) in
  (year, month, day).

Definition digit_char (d : Z) : ascii := ascii_of_nat (Z.to_nat (48 + d mod 10)).

Fixpoint pad (width : nat) (n : Z) (tail : string) : string :=
  match width with
  | O => tail
  | S w => pad w (n / 10) (String (digit_char n) tail)
  end.

Definition Format (t : time.Time) : string :=
  let s := t / time.Second in
  let '(year, month, day) := civil_of_days (s / secondsPerDay) in
  let sod := s mod secondsPerDay in
  pad 4 year ("-" ++ pad 2 month ("-" ++ pad 2 day ("T" ++
  pad 2 (sod / 3600) (":" ++ pad 2 (sod / 60 mod 60) (":" ++ pad 2 (sod mod 60) "Z"))))).

(** [width] digits, their value within [lo, hi]. *)
Fixpoint uint_from (width : nat) (acc : Z) (s : list ascii) : option (Z * list ascii) :=
  match width, s with
  | O, _ => Some (acc, s)
  | S w, c :: rest => d ← digit c; uint_from w (10 * acc + d) rest
  | S _, [] => None
  end.

Definition parseUint (width : nat) (lo hi : Z) (s : list ascii) : option (Z * list ascii) :=
  '(n, rest) ← uint_from width 0 s;
  if (lo <=? n) && (n <=? hi) then Some (n, rest) else None.

Definition expect (c : ascii) (s : list ascii) : option (list ascii) :=
  match s with
  | c' :: rest => if Ascii.eqb c c' then Some rest else None
  | [] => None
  end.

(** The digits of a fractional second: the first nine count. *)
Fixpoint parseNanoseconds (scale : Z) (s : list ascii) : Z * list ascii :=
  match s with
  | c :: rest =>
      match digit c with
      | Some d => let '(n, rest') := parseNanoseconds (scale / 10) rest in (d * scale + n, rest')
      | None => (0, s)
      end
  | [] => (0, s)
  end.

Definition parseFraction (s : list ascii) : Z * list ascii :=
  match s with
  | "."%char :: c :: rest =>
      match digit c with
      | Some _ => parseNanoseconds 100000000 (c :: rest)
      | None => (0, s)
      end
  | _ => (0, s)
  end.

Definition parseZone (s : list ascii) : option Z :=
  match s with
  | ["Z"%char] => Some 0
  | sign :: rest =>
      '(hr, rest) ← parseUint 2 0 23 rest;
      rest ← expect ":"%char rest;
      '(mm, rest) ← parseUint 2 0 59 rest;
      match rest with
      | [] =>
          let zoneOffset := (hr * 60 + mm) * 60 in
          if Ascii.eqb sign "+"%char then Some zoneOffset
          else if Ascii.eqb sign "-"%char then Some (- zoneOffset)
          else None
      | _ => None
      end
  | [] => None
  end.

(** [parseRFC3339], the strict path that [time.Parse] tries first: the
    grammar of RFC 3339. *)
Definition parseRFC3339 (value : string) : option time.Time :=
  let s := list_ascii_of_string value in
  '(year, s) ← parseUint 4 0 9999 s;
  s ← expect "-"%char s;
  '(month, s) ← parseUint 2 1 12 s;
  s ← expect "-"%char s;
  '(day, s) ← parseUint 2 1 (daysIn month year) s;
  s ← expect "T"%char s;
  '(hour, s) ← parseUint 2 0 23 s;
  s ← expect ":"%char s;
  '(min, s) ← parseUint 2 0 59 s;
  s ← expect ":"%char s;
  '(sec, s) ← parseUint 2 0 59 s;
  let '(nsec, s) := parseFraction s in
  zoneOffset ← parseZone s;
  let days := days_of_civil year month day in
  Some (((days * secondsPerDay + hour * 3600 + min * 60 + sec) - zoneOffset) * time.Second + nsec).

(** [getnum] of the package [time]: two digits, or a single one when the
    field is not [fixed]. *)
Definition getnum (fixed : bool) (s : list ascii) : option (Z * list ascii) :=
  match s with
  | c0 :: rest =>
      match digit c0 with
      | None => None
      | Some d0 =>
          match rest with
          | c1 :: rest' =>
              match digit c1 with
              | Some d1 => Some (d0 * 10 + d1, rest')
              | None => if fixed then None else Some (d0, rest)
              end
          | [] => if fixed then None else Some (d0, rest)
          end
      end
  | [] => None
  end.

Definition commaOrPeriod (c : ascii) : bool := Ascii.eqb c "."%char || Ascii.eqb c ","%char.

(** A fractional second in the input that the layout does not have: a
    period or a comma, then digits. *)
Definition parseFractionGeneral (s : list ascii) : Z * list ascii :=
  match s with
  | p :: c :: rest =>
      if commaOrPeriod p then
        match digit c with
        | Some _ => parseNanoseconds 100000000 (c :: rest)
        | None => (0, s)
        end
      else (0, s)
  | _ => (0, s)
  end.

(** The element [Z07:00] of the layout: [Z], or a sign, two digits, a
    colon and two digits; hours up to 24 and minutes up to 60 pass. *)
Definition parseZoneGeneral (s : list ascii) : option (Z * list ascii) :=
  match s with
  | "Z"%char :: rest => Some (0, rest)
  | sign :: h1 :: h2 :: colon :: m1 :: m2 :: rest =>
      if Ascii.eqb colon ":"%char then
        '(hr, _) ← getnum true [h1; h2];
        '(mm, _) ← getnum true [m1; m2];
        if (24 <? hr) || (60 <? mm) then None
        else
          let zoneOffset := (hr * 60 + mm) * 60 in
          if Ascii.eqb sign "+"%char then Some (zoneOffset, rest)
          else if Ascii.eqb sign "-"%char then Some (- zoneOffset, rest)
          else None
      else None
  | _ => None
  end.

(** [parse] of the package [time] on the layout [2006-01-02T15:04:05Z07:00],
    element by element: the hour may have one digit, the day is checked
    against the month at the end, and nothing may follow the zone. *)
Definition parse (value : string) : option time.Time :=
  let s := list_ascii_of_string value in
  '(year, s) ← uint_from 4 0 s;
  s ← expect "-"%char s;
  '(month, s) ← getnum true s;
  if (month <=? 0) || (12 <? month) then None else
  s ← expect "-"%char s;
  '(day, s) ← getnum true s;
  s ← expect "T"%char s;
  '(hour, s) ← getnum false s;
  if 24 <=? hour then None else
  s ← expect ":"%char s;
  '(min, s) ← getnum true s;
  if 60 <=? min then None else
  s ← expect ":"%char s;
  '(sec, s) ← getnum true s;
  if 60 <=? sec then None else
  let '(nsec, s) := parseFractionGeneral s in
  '(zoneOffset, s) ← parseZoneGeneral s;
  match s with
  | [] =>
      if (day <? 1) || (daysIn month year <? day) then None
      else
        let days := days_of_civil year month day in
        Some (((days * secondsPerDay + hour * 3600 + min * 60 + sec) - zoneOffset)
              * time.Second + nsec)
  | _ => None
  end.

(** [time.Parse(time.RFC3339, value)]: the strict path, and when that one
    does not accept the text, the general parser. *)
Definition Parse (value : string) : option time.Time :=
  match parseRFC3339 value with
  | Some t => Some t
  | None => parse value
  end.

End RFC3339.

#[export] Instance amd64_runtime : GoRuntime := {
  int64_indefinite := amd64_indefinite;
  time_Format_RFC3339 := RFC3339.Format;
  time_Parse_RFC3339 := RFC3339.Parse
}.

(** 2026-02-26T12:00:00Z, in nanoseconds from the zero [Time]. *)
Definition t_2026_02_26_noon : time.Time := 63907704000 * time.Second.

(** ** [handleGold18k] *)

Definition staleThreshold : time.Duration := 5 * time.Minute.

(** A JSON document, as far as the response needs one: an object whose
    members are strings, integers and booleans. *)
Inductive JValue :=
| JString (s : string)
| JNumber (n : Z)
| JBool (b : bool).

Inductive JSON :=
| JObject (members : list (string * JValue)).

(** [encoding/json] on a [GoldPrice]: one member per field, under the name
    of its [json] tag, in the order of the fields. *)
Definition json_Encode (v : GoldPrice.t) : JSON :=
  JObject [ ("name", JString (GoldPrice.Name v));
            ("price", JNumber (GoldPrice.Price v));
            ("fetchedAt", JString (GoldPrice.FetchedAt v));
            ("stale", JBool (GoldPrice.Stale v)) ].

Inductive Body :=
| BodyText (text : string)
| BodyJSON (v : JSON).

Record Response := {
  StatusCode : Z;
  ContentType : string;
  body : Body
}.

Definition newline : string := String "010"%char EmptyString.
Definition dquote : string := String "034"%char EmptyString.
Definition quoted (s : string) : string := dquote ++ s ++ dquote.

(** [http.Error(w, error, code)]: the text, ended by a newline. *)
Definition http_Error (error : string) (code : Z) : Response :=
  {| StatusCode := code;
     ContentType := "text/plain; charset=utf-8";
     body := BodyText (error ++ newline) |}.

(** The JSON text [{"error":"no cached price available"}]. *)
Definition no_cached_price : string :=
  "{" ++ quoted "error" ++ ":" ++ quoted "no cached price available" ++ "}".

(** [row.Scan] of the query by symbol: the row, or the error of an absent
    row or of a failed query. *)
Definition QueryRow_Scan (Query_err : bool) (db : Table) (symbol : string) : option Row :=
  if Query_err then None else db !! symbol.

Section Handler.
Context {RT : GoRuntime}.

(** [now] is the instant [time.Since] reads; [Query_err] tells whether the
    store fails to answer. *)
Definition handleGold18k (now : time.Time) (Query_err : bool) (st : State) : Response :=
  match QueryRow_Scan Query_err (database st) "gold_18k" with
  | None => http_Error no_cached_price http_StatusServiceUnavailable
  | Some r =>
      let fetchedAt := default time.zero (time_Parse_RFC3339 (fetched_at r)) in
      let stale := staleThreshold <? time.Sub now fetchedAt in
      let resp := {| GoldPrice.Name := name r;
                     GoldPrice.Price := price_rial r;
                     GoldPrice.FetchedAt := fetched_at r;
                     GoldPrice.Stale := stale |} in
      {| StatusCode := http_StatusOK;
         ContentType := "application/json";
         body := BodyJSON (json_Encode resp) |}
  end.

End Handler.

(** ** [envOrDefault], [strconv.Atoi] and the start of [main] *)

(** The environment of the process; [os.Getenv] gives the empty string
    for a variable that is not set. *)
Definition os_Getenv (env : gmap string string) (key : string) : string :=
  default EmptyString (env !! key).

Definition envOrDefault (env : gmap string string) (key fallback : string) : string :=
  let v := os_Getenv env key in
  if String.eqb v EmptyString then fallback else v.

Module strconv.

(** The value of a string of decimal digits, [None] when a character is
    not a digit. *)
Fixpoint digits_value (acc : Z) (s : list ascii) : option Z :=
  match s with
  | [] => Some acc
  | c :: rest => d ← digit c; digits_value (10 * acc + d) rest
  end.

(** The optional sign of a number, and what follows it. *)
Definition sign_and_digits (cs : list ascii) : bool * list ascii :=
  match cs with
  | "-"%char :: rest => (true, rest)
  | "+"%char :: rest => (false, rest)
  | _ => (false, cs)
  end.

Inductive NumError := ErrSyntax | ErrRange.

Definition maxUint64 : Z := 2 ^ 64 - 1.

(** The loop of [ParseUint] in base 10 on 64 bits: a byte that is not a
    digit is a syntax error; a digit that would take the value past
    [maxUint64] is a range error, returned at once, before the bytes that
    follow are looked at. *)
Fixpoint ParseUint_loop (n : Z) (cs : list ascii) : Z * option NumError :=
  match cs with
  | [] => (n, None)
  | c :: rest =>
      match digit c with
      | None => (0, Some ErrSyntax)
      | Some d =>
          if maxUint64 / 10 + 1 <=? n then (maxUint64, Some ErrRange)
          else
            let n1 := n * 10 + d in
            if maxUint64 <? n1 then (maxUint64, Some ErrRange)
            else ParseUint_loop n1 rest
      end
  end.

Definition ParseUint (cs : list ascii) : Z * option NumError :=
  match cs with
  | [] => (0, Some ErrSyntax)
  | _ => ParseUint_loop 0 cs
  end.

(** [ParseInt(s, 10, 0)] with an int of 64 bits. *)
Definition ParseInt (cs : list ascii) : Z * option NumError :=
  match cs with
  | [] => (0, Some ErrSyntax)
  | _ =>
      let '(neg, ds) := sign_and_digits cs in
      match ParseUint ds with
      | (_, Some ErrSyntax) => (0, Some ErrSyntax)
      | (un, _) =>
          let cutoff := 2 ^ 63 in
          if negb neg && (cutoff <=? un) then (cutoff - 1, Some ErrRange)
          else if neg && (cutoff <? un) then (- cutoff, Some ErrRange)
          else
            let n := wrap64 un in
            (if neg then wrap64 (- n) else n, None)
      end
  end.

(** [strconv.Atoi(s)] with an int of 64 bits, as the value and the error:
    the fast path for a text of 1 to 18 bytes, [ParseInt] for the rest. *)
Definition Atoi (s : string) : Z * option NumError :=
  let cs := list_ascii_of_string s in
  let sLen := Z.of_nat (length cs) in
  if (0 <? sLen) && (sLen <? 19) then
    let '(neg, ds) := sign_and_digits cs in
    match ds with
    | [] => (0, Some ErrSyntax)
    | _ =>
        match digits_value 0 ds with
        | None => (0, Some ErrSyntax)
        | Some n => (if neg then - n else n, None)
        end
    end
  else ParseInt cs.

(** The syntax [Atoi] accepts: an optional sign, then one or more decimal
    digits. *)
Definition integer_syntax (s : string) : bool :=
  match snd (sign_and_digits (list_ascii_of_string s)) with
  | [] => false
  | ds => forallb (fun c => bool_decide (is_Some (digit c))) ds
  end.

End strconv.

(** How the start of [main] ends. *)
Inductive Startup :=
| Fatal (msg : string)                  (* log.Fatal: the process exits *)
| Panic (msg : string)
| Polling (pollInterval : time.Duration) (port : string) (st : State).

(** [time.NewTicker(d)] panics unless [d] is positive. *)
Definition NewTicker_panics (d : time.Duration) : bool := d <=? 0.

Section Main.
Context {RT : GoRuntime}.

Definition pollInterval_of (env : gmap string string) : time.Duration :=
  let pollSeconds := fst (strconv.Atoi (envOrDefault env "POLL_INTERVAL" "60")) in
  wrap64 (pollSeconds * time.Second).

(** Lines 47-89 of [main]: configuration, the store, the initial fetch and
    the ticker.  [Open_err] and [Create_err] are the errors of [sql.Open]
    and of the [CREATE TABLE]; [w] is the environment of the initial
    fetch. *)
Definition main_start (env : gmap string string) (Open_err Create_err : option string)
    (w : World) (st : State) : Startup :=
  let port := envOrDefault env "PORT" "8080" in
  let apiKey := os_Getenv env "BRS_API_KEY" in
  if String.eqb apiKey EmptyString then
    Fatal "BRS_API_KEY environment variable is required"
  else
    let pollInterval := pollInterval_of env in
    match Open_err with
    | Some cause => Fatal ("Failed to open SQLite: " ++ cause)
    | None =>
        match Create_err with
        | Some cause => Fatal ("Failed to create table: " ++ cause)
        | None =>
            let st := emit (EvLog "[poller] Initial fetch...") st in
            let '(st, err) := fetchAndCache apiKey w st in
            let st :=
              match err with
              | Some e =>
                  emit (EvLog ("[poller] Initial fetch failed: " ++ error_text e
                               ++ " (will retry on next tick)")) st
              | None => st
              end in
            if NewTicker_panics pollInterval then
              Panic "non-positive interval for NewTicker"
            else Polling pollInterval port st
        end
    end.

End Main.

(** ** The poller loop and overlapping calls *)

Section Poller.
Context {RT : GoRuntime}.

(** One tick of the loop of lines 93-104. *)
Definition tick (apiKey : string) (w : World) (st : State) : State * option error :=
  let '(st, err) := fetchAndCache apiKey w st in
  match err with
  | Some e => (emit (EvLog ("[poller] Fetch failed: " ++ error_text e)) st, err)
  | None => (st, err)
  end.

(** The ticks of the loop, one after the other, each with its
    environment; the result of every call is kept. *)
Fixpoint poller (apiKey : string) (ws : list World) (st : State)
  : State * list (option error) :=
  match ws with
  | [] => (st, [])
  | w :: ws' =>
      let '(st1, err) := tick apiKey w st in
      let '(st2, errs) := poller apiKey ws' st1 in
      (st2, err :: errs)
  end.

(** Calls of [fetchAndCache] from several goroutines: the package state,
    and the number of calls that are blocked in [client.Do]. *)
Record Sys := { sys_state : State; in_flight : nat }.

(** A call starts and runs to its blocking point or to its return; or the
    answer of the upstream arrives for a blocked call, which runs to its
    return. *)
Inductive sys_step (apiKey : string) : Sys -> Sys -> Prop :=
| step_returned w s st' err :
    fetchAndCache_enter apiKey w (sys_state s) = (st', Returned err) ->
    sys_step apiKey s {| sys_state := st'; in_flight := in_flight s |}
| step_blocked w s st' :
    fetchAndCache_enter apiKey w (sys_state s) = (st', AwaitingDo) ->
    sys_step apiKey s {| sys_state := st'; in_flight := S (in_flight s) |}
| step_answered w s n st' err :
    in_flight s = S n ->
    fetchAndCache_resume w (sys_state s) = (st', err) ->
    sys_step apiKey s {| sys_state := st'; in_flight := n |}.

Definition sys_init (d : Table) : Sys :=
  {| sys_state := {| pollMu := false; database := d; trace := [] |}; in_flight := 0 |}.

End Poller.

(** The number of calls blocked in [client.Do] is 1 when the mutex is held
    and 0 when it is free. *)
Definition guarded (s : Sys) : Prop :=
  in_flight s = if pollMu (sys_state s) then 1%nat else 0%nat.

(** The events of [st'] that come after those of [st]. *)
Definition new_events (st st' : State) : list Event :=
  drop (length (trace st)) (trace st').

(** The member [stale] of a JSON response, when there is one. *)
Definition stale_of (resp : Response) : option bool :=
  match body resp with
  | BodyJSON (JObject members) =>
      match List.find (fun kv => String.eqb (fst kv) "stale") members with
      | Some (_, JBool b) => Some b
      | _ => None
      end
  | BodyText _ => None
  end.

(** ** Sample inputs *)

Definition item18k (name : string) (price : float64) : BrsApiItem.t :=
  {| BrsApiItem.Symbol := "IR_GOLD_18K"; BrsApiItem.Name := name; BrsApiItem.Price := price |}.

(** An upstream that answers 200 with the given items, a store that
    accepts the write. *)
Definition answering (items : list BrsApiItem.t) (now : time.Time) : World :=
  {| NewRequest_err := None;
     Do := DoResponse 200 (DecodeOk {| BrsApiResponse.Gold := items |});
     Exec_err := None;
     Now := now |}.

(** An upstream that cannot be reached. *)
Definition unreachable (now : time.Time) : World :=
  {| NewRequest_err := None;
     Do := DoError "timeout";
     Exec_err := None;
     Now := now |}.

(** The float64 nearest to 0.05: a twentieth of a toman. *)
Definition price_0_05 : float64 :=
  Eval vm_compute in Float64.div (Float64.of_Z 1) (Float64.of_Z 20).

(** The float64 nearest to 0.1: its tenfold rounds to 1. *)
Definition price_0_1 : float64 :=
  Eval vm_compute in Float64.div (Float64.of_Z 1) (Float64.of_Z 10).

(** The float64 0.5: half a toman, five rial. *)
Definition price_0_5 : float64 :=
  Eval vm_compute in Float64.div (Float64.of_Z 1) (Float64.of_Z 2).

Definition st_empty : State := {| pollMu := false; database := ∅; trace := [] |}.

Definition row_sample : Row :=
  {| name := "gold"; price_rial := 42500000; fetched_at := "2026-02-26T12:00:00Z" |}.

Definition st_cached (r : Row) : State :=
  {| pollMu := false; database := {[ "gold_18k" := r ]}; trace := [] |}.

(** The state a call leaves when it has accepted an item and written its
    row: the request, the upsert and the log line in the trace, the mutex
    released. *)
Definition written (apiKey : string) (r : Row) (st : State) : State :=
  {| pollMu := false;
     database := <["gold_18k" := r]> (database st);
     trace := trace st ++ [ EvHTTPGet (api_url apiKey) user_agent;
                            EvExecUpsert "gold_18k" r;
                            EvLog (updated_line (name r) (price_rial r)) ] |}.


(** Four ticks: the upstream is down, answers, and is down twice. *)
Definition ticks_sample : list World :=
  [ unreachable t_2026_02_26_noon;
    answering [item18k "gold" (Float64.of_Z 4250000)] (t_2026_02_26_noon + time.Minute);
    unreachable (t_2026_02_26_noon + 2 * time.Minute);
    unreachable (t_2026_02_26_noon + 3 * time.Minute) ].

Definition row_unparsable : Row :=
  {| name := "gold"; price_rial := 42500000; fetched_at := "yesterday" |}.

(** A row whose timestamp has an hour of one digit. *)
Definition row_one_digit_hour : Row :=
  {| name := "gold"; price_rial := 42500000; fetched_at := "2026-02-26T1:00:00Z" |}.

(** An environment with the credential and a poll interval. *)
Definition env_with (pollInterval : string) : gmap string string :=
  {[ "BRS_API_KEY" := "secret"; "POLL_INTERVAL" := pollInterval ]}.

(** ** Counting effects *)

Definition is_request (ev : Event) : bool :=
  match ev with EvHTTPGet _ _ => true | _ => false end.

Definition is_upsert (ev : Event) : bool :=
  match ev with EvExecUpsert _ _ => true | _ => false end.

Definition count_requests (evs : list Event) : nat := length (List.filter is_request evs).
Definition count_upserts (evs : list Event) : nat := length (List.filter is_upsert evs).

(** The ticks whose request can be created. *)
Definition can_request (w : World) : bool :=
  match NewRequest_err w with None => true | Some _ => false end.

(** More sample inputs: an upstream that answers with another status, a
    store that refuses the write, a request that cannot be created. *)
Definition answering_status (code : Z) (items : list BrsApiItem.t) (now : time.Time) : World :=
  {| NewRequest_err := None;
     Do := DoResponse code (DecodeOk {| BrsApiResponse.Gold := items |});
     Exec_err := None;
     Now := now |}.

Definition store_refusing (items : list BrsApiItem.t) (now : time.Time) : World :=
  {| NewRequest_err := None;
     Do := DoResponse 200 (DecodeOk {| BrsApiResponse.Gold := items |});
     Exec_err := Some "disk I/O error";
     Now := now |}.

Definition item_other (symbol : string) (price : float64) : BrsApiItem.t :=
  {| BrsApiItem.Symbol := symbol; BrsApiItem.Name := symbol; BrsApiItem.Price := price |}.

(** Lines 83-86 of [main]: the state after the initial fetch, whose
    failure is only logged. *)
Definition initial_fetch `{GoRuntime} (apiKey : string) (w : World) (st : State) : State :=
  let st := emit (EvLog "[poller] Initial fetch...") st in
  let '(st, err) := fetchAndCache apiKey w st in
  match err with
  | Some e =>
      emit (EvLog ("[poller] Initial fetch failed: " ++ error_text e
                   ++ " (will retry on next tick)")) st
  | None => st
  end.

(** The system after one call has sent its request, from an empty table. *)
Definition sys_fetching : Sys :=
  {| sys_state := emit (EvHTTPGet (api_url "key") user_agent)
                    (set_pollMu true (sys_state (sys_init ∅)));
     in_flight := 1 |}.

(** * Properties *)

(** ** float64: rounding and the conversion to int64 *)

Lemma digits2_pos_size p : digits2_pos p = Pos.size p.
Proof. induction p; cbn; congruence. Qed.

Lemma digits_bounds p :
  2 ^ (Z.pos (digits2_pos p) - 1) <= Z.pos p < 2 ^ Z.pos (digits2_pos p).
Proof.
  rewrite digits2_pos_size. split.
  - pose proof (Pos.size_le p) as H.
    assert (H' : 2 ^ Z.pos (Pos.size p) <= 2 * Z.pos p).
    { rewrite <- Pos2Z.inj_pow. change (2 * Z.pos p) with (Z.pos p~0). exact H. }
    replace (Z.pos (Pos.size p)) with (Z.succ (Z.pos (Pos.size p) - 1)) in H' by lia.
    rewrite Z.pow_succ_r in H' by lia. lia.
  - pose proof (Pos.size_gt p) as H. rewrite <- Pos2Z.inj_pow. exact H.
Qed.

Lemma digits_unique p d :
  2 ^ (d - 1) <= Z.pos p < 2 ^ d -> Z.pos (digits2_pos p) = d.
Proof.
  intros [Hlo Hhi]. pose proof (digits_bounds p) as [Blo Bhi].
  set (k := Z.pos (digits2_pos p)) in *.
  assert (0 < d).
  { destruct (Z.ltb_spec 0 d) as [|Hd]; [assumption|]. exfalso.
    assert (2 ^ d <= 1).
    { destruct (Z.eq_dec d 0) as [->|]; [cbn; lia | rewrite Z.pow_neg_r by lia; lia]. }
    lia. }
  destruct (Z.lt_trichotomy k d) as [L|[E|G]]; [|exact E|].
  - assert (2 ^ k <= 2 ^ (d - 1)) by (apply Z.pow_le_mono_r; lia). lia.
  - assert (2 ^ d <= 2 ^ (k - 1)) by (apply Z.pow_le_mono_r; lia). lia.
Qed.

(** The iteration of [SpecFloat] is the iteration on [nat]. *)
Lemma iter_pos_nat {A} (f : A -> A) n x :
  SpecFloat.iter_pos f n x = Nat.iter (Pos.to_nat n) f x.
Proof.
  revert x. induction n as [n IH|n IH|]; intros x; cbn [SpecFloat.iter_pos].
  - rewrite !IH, Pos2Nat.inj_xI, <- Nat.iter_add, <- Nat.iter_succ_r.
    f_equal. lia.
  - rewrite !IH, Pos2Nat.inj_xO, <- Nat.iter_add. f_equal. lia.
  - reflexivity.
Qed.

Lemma shr_1_m r : 0 <= shr_m r -> shr_m (shr_1 r) = shr_m r / 2.
Proof.
  destruct r as [m b s]. cbn [shr_m]. intros Hm.
  rewrite <- Z.div2_div.
  destruct m as [|[p|p|]|p]; cbn; try reflexivity; lia.
Qed.

Lemma shr_iter_m k r :
  0 <= shr_m r -> shr_m (Nat.iter k shr_1 r) = shr_m r / 2 ^ Z.of_nat k.
Proof.
  intros Hm. induction k as [|k IH].
  - cbn. rewrite Z.div_1_r. reflexivity.
  - rewrite Nat.iter_succ, shr_1_m.
    + rewrite IH, Nat2Z.inj_succ, Z.pow_succ_r by lia.
      rewrite Z.div_div by lia. f_equal. lia.
    + rewrite IH. apply Z.div_pos; lia.
Qed.

Lemma shr_1_exact m :
  0 <= m -> m mod 2 = 0 ->
  shr_1 (Build_shr_record m false false) = Build_shr_record (m / 2) false false.
Proof.
  intros Hm Hev. rewrite <- Z.div2_div.
  destruct m as [|[p|p|]|p]; cbn; try reflexivity; try lia.
  - exfalso. rewrite Pos2Z.inj_xI in Hev. 
    rewrite Z.add_comm, Z.mul_comm, Z.mod_add in Hev by lia. discriminate.
  - discriminate.
Qed.

Lemma shr_iter_exact k m :
  0 <= m -> m mod 2 ^ Z.of_nat k = 0 ->
  Nat.iter k shr_1 (Build_shr_record m false false)
  = Build_shr_record (m / 2 ^ Z.of_nat k) false false.
Proof.
  intros Hm. induction k as [|k IH]; intros Hdiv.
  - cbn. rewrite Z.div_1_r. reflexivity.
  - rewrite Nat2Z.inj_succ, Z.pow_succ_r in * by lia.
    assert (P : 0 < 2 ^ Z.of_nat k) by (apply Z.pow_pos_nonneg; lia).
    apply Z.mod_divide in Hdiv; [|lia]. destruct Hdiv as [q Hq].
    rewrite Nat.iter_succ, IH.
    + replace (m / 2 ^ Z.of_nat k) with (2 * q).
      2:{ subst m. replace (q * (2 * 2 ^ Z.of_nat k)) with (2 * q * 2 ^ Z.of_nat k) by lia.
          rewrite Z.div_mul; lia. }
      rewrite shr_1_exact.
      * f_equal. subst m. rewrite Z.mul_comm, Z.div_mul by lia.
        rewrite Z.div_mul; lia.
      * lia.
      * rewrite Z.mul_comm. apply Z.mod_mul. lia.
    + subst m. replace (q * (2 * 2 ^ Z.of_nat k)) with (2 * q * 2 ^ Z.of_nat k) by lia.
      apply Z.mod_mul. lia.
Qed.

Lemma shr_nonneg r e n :
  0 <= n -> shr r e n = (Nat.iter (Z.to_nat n) shr_1 r, e + n).
Proof.
  intros Hn. destruct n as [|p|p]; [| |lia].
  - cbn. rewrite Z.add_0_r. reflexivity.
  - cbn [shr]. rewrite iter_pos_nat. reflexivity.
Qed.

Lemma fexp_normal x : - 1074 <= x - 53 -> fexp prec emax x = x - 53.
Proof. unfold fexp, SpecFloat.emin, prec, emax. lia. Qed.

Lemma round_nearest_even_step m l :
  round_nearest_even m l = m \/ round_nearest_even m l = m + 1.
Proof.
  destruct l as [|[| |]]; cbn; auto. destruct (Z.even m); auto.
Qed.

(** Rounding a mantissa that is a 53-digit number times a power of two:
    nothing is lost. *)
Lemma binary_round_aux_exact s M E q sh :
  Z.pos M = Z.pos q * 2 ^ sh ->
  Z.pos (digits2_pos q) = 53 ->
  0 <= sh ->
  - 1074 <= E + sh <= 971 ->
  binary_round_aux prec emax s (Z.pos M) E loc_Exact = S754_finite s q (E + sh).
Proof.
  intros HM Hq Hsh HE.
  pose proof (digits_bounds q) as Bq. rewrite Hq in Bq.
  assert (P : 0 < 2 ^ sh) by (apply Z.pow_pos_nonneg; lia).
  assert (DM : Z.pos (digits2_pos M) = 53 + sh).
  { apply digits_unique. rewrite HM.
    replace (53 + sh - 1) with (52 + sh) by lia.
    rewrite !Z.pow_add_r by lia. change (53 - 1) with 52 in Bq. nia. }
  unfold binary_round_aux, shr_fexp. cbn [Zdigits2 shr_record_of_loc].
  rewrite DM, fexp_normal by lia.
  replace (53 + sh + E - 53 - E) with sh by lia.
  rewrite shr_nonneg by lia.
  rewrite shr_iter_exact; [|lia|].
  2:{ rewrite Z2Nat.id by lia. rewrite HM. apply Z.mod_mul. lia. }
  rewrite Z2Nat.id by lia. rewrite HM, Z.div_mul by lia.
  cbn [shr_m loc_of_shr_record round_nearest_even Zdigits2 shr_record_of_loc].
  rewrite Hq, fexp_normal by lia.
  replace (53 + (E + sh) - 53 - (E + sh)) with 0 by lia.
  cbn [shr shr_m].
  replace (E + sh <=? emax - prec) with true; [reflexivity|].
  symmetry. apply Z.leb_le. unfold emax, prec. lia.
Qed.

(** Rounding a mantissa of at least 53 digits, away from the subnormal
    range: the result has 53 digits, and its exponent is the one that
    keeps the leading digit in place, or one more when rounding carries. *)
Lemma binary_round_aux_normal s M E :
  53 <= Z.pos (digits2_pos M) ->
  - 1074 <= Z.pos (digits2_pos M) + E - 53 ->
  binary_round_aux prec emax s (Z.pos M) E loc_Exact = S754_infinity s
  \/ exists m e,
       binary_round_aux prec emax s (Z.pos M) E loc_Exact = S754_finite s m e
       /\ Z.pos (digits2_pos m) = 53
       /\ Z.pos (digits2_pos M) + E - 53 <= e <= Z.pos (digits2_pos M) + E - 52.
Proof.
  intros HD HE.
  pose proof (digits_bounds M) as BM.
  set (D := Z.pos (digits2_pos M)) in *.
  set (n := D - 53).
  assert (Pn : 0 < 2 ^ n) by (apply Z.pow_pos_nonneg; lia).
  assert (Hsplit1 : 2 ^ (D - 1) = 2 ^ n * 2 ^ 52).
  { rewrite <- Z.pow_add_r by lia. f_equal. lia. }
  assert (Hsplit2 : 2 ^ D = 2 ^ n * 2 ^ 53).
  { rewrite <- Z.pow_add_r by lia. f_equal. lia. }
  set (q := Z.pos M / 2 ^ n).
  assert (Bq : 2 ^ 52 <= q < 2 ^ 53).
  { split.
    - apply Z.div_le_lower_bound; lia.
    - apply Z.div_lt_upper_bound; lia. }
  unfold binary_round_aux, shr_fexp. cbn [Zdigits2 shr_record_of_loc].
  fold D. rewrite fexp_normal by lia.
  replace (D + E - 53 - E) with n by lia.
  rewrite shr_nonneg by lia.
  remember (Nat.iter (Z.to_nat n) shr_1 (Build_shr_record (Z.pos M) false false)) as r1 eqn:Hr1.
  assert (Hm1 : shr_m r1 = q).
  { subst r1. rewrite shr_iter_m by (cbn; lia). cbn [shr_m].
    rewrite Z2Nat.id by lia. reflexivity. }
  rewrite Hm1.
  destruct (round_nearest_even_step q (loc_of_shr_record r1)) as [Hr|Hr]; rewrite Hr.
  - (* rounded down *)
    destruct q as [|qp|qp]; try lia.
    assert (Dq : Z.pos (digits2_pos qp) = 53) by (apply digits_unique; exact Bq).
    cbn [Zdigits2]. rewrite Dq, fexp_normal by lia.
    replace (53 + (E + n) - 53 - (E + n)) with 0 by lia.
    cbn [shr shr_m].
    destruct (E + n <=? emax - prec); [right | left; reflexivity].
    exists qp, (E + n). split; [reflexivity|]. split; [exact Dq|]. lia.
  - (* rounded up *)
    destruct (Z.eq_dec (q + 1) (2 ^ 53)) as [Hc|Hc].
    + (* the carry *)
      rewrite Hc. change (2 ^ 53) with 9007199254740992.
      cbn [Zdigits2]. change (Z.pos (digits2_pos 9007199254740992)) with 54.
      rewrite fexp_normal by lia.
      replace (54 + (E + n) - 53 - (E + n)) with 1 by lia.
      cbn [shr SpecFloat.iter_pos shr_1 shr_m].
      destruct (E + n + 1 <=? emax - prec); [right | left; reflexivity].
      eexists _, _. split; [reflexivity|]. split; [reflexivity|]. lia.
    + destruct (q + 1) as [|qp|qp] eqn:Hq1; try lia.
      assert (Dq : Z.pos (digits2_pos qp) = 53) by (apply digits_unique; lia).
      cbn [Zdigits2]. rewrite Dq, fexp_normal by lia.
      replace (53 + (E + n) - 53 - (E + n)) with 0 by lia.
      cbn [shr shr_m].
      destruct (E + n <=? emax - prec); [right | left; reflexivity].
      exists qp, (E + n). split; [reflexivity|]. split; [exact Dq|]. lia.
Qed.

(** The product of a normal float64 and ten: an infinity, or a normal
    float64 whose exponent is at least 3 above. *)
Lemma mul_ten_normal s m e :
  Z.pos (digits2_pos m) = 53 ->
  - 1074 <= e ->
  mul (S754_finite s m e) ten = S754_infinity s
  \/ exists m' e',
       mul (S754_finite s m e) ten = S754_finite s m' e'
       /\ Z.pos (digits2_pos m') = 53
       /\ e + 3 <= e'.
Proof.
  intros Hm He.
  pose proof (digits_bounds m) as Bm. rewrite Hm in Bm.
  change (53 - 1) with 52 in Bm.
  unfold mul, ten, SFmul. rewrite xorb_false_r.
  set (M := (m * 5629499534213120)%positive).
  assert (BM : 2 ^ 104 <= Z.pos M < 2 ^ 106).
  { unfold M. rewrite Pos2Z.inj_mul.
    change (2 ^ 104) with (2 ^ 52 * 2 ^ 52).
    change (2 ^ 106) with (2 ^ 53 * 2 ^ 53).
    assert (2 ^ 52 <= 5629499534213120 < 2 ^ 53) by (cbn; lia).
    nia. }
  pose proof (digits_bounds M) as BD.
  set (D := Z.pos (digits2_pos M)) in *.
  assert (HD : 105 <= D <= 106).
  { split.
    - destruct (Z.le_gt_cases 105 D) as [|L]; [assumption|].
      assert (2 ^ D <= 2 ^ 104) by (apply Z.pow_le_mono_r; lia). lia.
    - destruct (Z.le_gt_cases D 106) as [|L]; [assumption|].
      assert (2 ^ 106 <= 2 ^ (D - 1)) by (apply Z.pow_le_mono_r; lia). lia. }
  destruct (binary_round_aux_normal s M (e + -49)) as [Hinf | (m' & e' & Hfin & Hd & Hexp)];
    fold D; try lia.
  - left. exact Hinf.
  - right. exists m', e'. fold D in Hexp. split; [exact Hfin|]. split; [exact Hd|]. lia.
Qed.

(** The integer part of a positive float64 with 53 digits. *)
Lemma trunc_normal_positive m e :
  Z.pos (digits2_pos m) = 53 ->
  - 52 <= e <= 10 ->
  exists z, trunc_float64 (S754_finite false m e) = Some z /\ 1 <= z < 2 ^ 63.
Proof.
  intros Hm He.
  pose proof (digits_bounds m) as Bm. rewrite Hm in Bm.
  change (53 - 1) with 52 in Bm.
  unfold trunc_float64. eexists. split; [reflexivity|].
  destruct (Z.leb_spec 0 e) as [H0|H0].
  - rewrite Z.shiftl_mul_pow2 by lia.
    assert (Pa : 0 < 2 ^ e) by (apply Z.pow_pos_nonneg; lia).
    assert (Ha : 2 ^ e <= 2 ^ 10) by (apply Z.pow_le_mono_r; lia).
    split.
    + change 1 with (1 * 1). apply Z.mul_le_mono_nonneg; lia.
    + change (2 ^ 63) with (2 ^ 53 * 2 ^ 10).
      apply Z.le_lt_trans with (Z.pos m * 2 ^ 10).
      * apply Z.mul_le_mono_nonneg_l; lia.
      * apply Z.mul_lt_mono_pos_r; [reflexivity | lia].
  - rewrite Z.shiftr_div_pow2 by lia.
    assert (Pa : 0 < 2 ^ (- e)) by (apply Z.pow_pos_nonneg; lia).
    assert (Ha : 2 ^ (- e) <= 2 ^ 52) by (apply Z.pow_le_mono_r; lia).
    split.
    + apply Z.div_le_lower_bound; lia.
    + apply Z.div_lt_upper_bound; [lia|].
      apply Z.lt_le_trans with (1 * 2 ^ 63); [change (1 * 2 ^ 63) with (2 ^ 63); 
        apply Z.lt_trans with (2 ^ 53); [lia | reflexivity]|].
      apply Z.mul_le_mono_nonneg_r; [discriminate | lia].
Qed.

(** A valid float64 that is at least one is the positive infinity or a
    normal number with an exponent of at least -52. *)
Lemma valid_ge_one p :
  valid p = true -> leb one p = true ->
  p = S754_infinity false
  \/ exists m e, p = S754_finite false m e
                 /\ Z.pos (digits2_pos m) = 53 /\ - 52 <= e.
Proof.
  intros Hv Hle. destruct p as [s|s| |s m e].
  - discriminate Hle.
  - destruct s; [discriminate Hle | left; reflexivity].
  - discriminate Hle.
  - right. destruct s; [discriminate Hle|]. exists m, e.
    assert (He : - 52 <= e).
    { unfold leb, SFleb, one, SFcompare in Hle.
      destruct (Z.compare_spec (-52) e); [lia | lia | discriminate Hle]. }
    split; [reflexivity|]. split; [|exact He].
    unfold valid, valid_binary, bounded, canonical_mantissa in Hv.
    apply andb_prop in Hv. destruct Hv as [Hc _].
    apply Z.eqb_eq in Hc. unfold fexp, SpecFloat.emin, prec, emax in Hc. lia.
Qed.

Lemma SFcompare_positive m1 e1 m2 e2 :
  SFcompare (S754_finite false m1 e1) (S754_finite false m2 e2)
  = Some match e1 ?= e2 with
         | Lt => Lt
         | Gt => Gt
         | Eq => (m1 ?= m2)%positive
         end.
Proof. reflexivity. Qed.

(** A float64 with 53 digits that is below 2^63 is negative or has an
    exponent of at most 10. *)
Lemma lt_two63 s m e :
  Z.pos (digits2_pos m) = 53 ->
  ltb (S754_finite s m e) two63 = true ->
  s = true \/ e <= 10.
Proof.
  intros Hm Hlt. destruct s; [left; reflexivity | right].
  pose proof (digits_bounds m) as Bm. rewrite Hm in Bm.
  change (53 - 1) with 52 in Bm.
  unfold ltb, SFltb, two63 in Hlt. rewrite SFcompare_positive in Hlt.
  destruct (Z.compare_spec e 11) as [->|L|G]; [|lia|discriminate Hlt].
  exfalso.
  destruct (Pos.compare_spec m 4503599627370496) as [E|L|G];
    [discriminate Hlt | | discriminate Hlt].
  apply Pos2Z.pos_lt_pos in L. change (Z.pos 4503599627370496) with (2 ^ 52) in L. lia.
Qed.

Lemma iter_xO p k : Z.pos (Pos.iter xO p k) = Z.pos p * 2 ^ Z.pos k.
Proof.
  rewrite <- Z.shiftl_mul_pow2 by lia. cbn [Z.shiftl].
  apply (Pos.iter_swap_gen _ _ Z.pos xO (Z.mul 2)). reflexivity.
Qed.

(** The float64 of a positive integer below 2^53 is that integer, its
    mantissa shifted to 53 digits. *)
Lemma of_Z_small p :
  Z.pos p < 2 ^ 53 ->
  exists m,
    of_Z (Z.pos p) = S754_finite false m (Z.pos (digits2_pos p) - 53)
    /\ Z.pos (digits2_pos m) = 53
    /\ Z.pos m = Z.pos p * 2 ^ (53 - Z.pos (digits2_pos p)).
Proof.
  intros Hp. pose proof (digits_bounds p) as Bp.
  set (d := Z.pos (digits2_pos p)) in *.
  assert (Hd : 1 <= d <= 53).
  { split; [unfold d; lia|].
    destruct (Z.le_gt_cases d 53) as [|L]; [assumption|].
    assert (2 ^ 53 <= 2 ^ (d - 1)) by (apply Z.pow_le_mono_r; lia). lia. }
  unfold of_Z, binary_normalize, binary_round. fold d.
  rewrite fexp_normal by lia. unfold shl_align.
  destruct (d + 0 - 53 - 0) as [|k|k] eqn:Hk; [|lia|].
  - exists p. assert (d = 53) as Hd53 by lia.
    rewrite (binary_round_aux_exact false p 0 p 0);
      [| cbn; lia | exact Hd53 | lia | lia].
    rewrite Hd53. split; [reflexivity|]. split; [exact Hd53|]. cbn. lia.
  - set (m := Pos.iter xO p k).
    assert (Hm : Z.pos m = Z.pos p * 2 ^ (53 - d)).
    { unfold m. rewrite iter_xO. f_equal. f_equal. lia. }
    assert (Dm : Z.pos (digits2_pos m) = 53).
    { apply digits_unique. rewrite Hm.
      assert (P : 0 < 2 ^ (53 - d)) by (apply Z.pow_pos_nonneg; lia).
      assert (E1 : 2 ^ (53 - 1) = 2 ^ (d - 1) * 2 ^ (53 - d)).
      { rewrite <- Z.pow_add_r by lia. f_equal. lia. }
      assert (E2 : 2 ^ 53 = 2 ^ d * 2 ^ (53 - d)).
      { rewrite <- Z.pow_add_r by lia. f_equal. lia. }
      rewrite E1, E2. split.
      - apply Z.mul_le_mono_nonneg_r; lia.
      - apply Z.mul_lt_mono_pos_r; lia. }
    exists m.
    rewrite (binary_round_aux_exact false m (d + 0 - 53) m 0);
      [| cbn; lia | exact Dm | lia | lia].
    split; [f_equal; lia|]. split; [exact Dm | exact Hm].
Qed.

(** Ten times a whole number, as long as five times the number still has
    53 digits or less, is exact. *)
Lemma mul_ten_exact indefinite n :
  1 <= n -> 5 * n < 2 ^ 53 ->
  int64_of_float64 indefinite (mul (of_Z n) ten) = 10 * n.
Proof.
  intros H1 H5. destruct n as [|p|p]; try lia.
  destruct (of_Z_small p) as (m & Hof & Dm & Hm); [lia|].
  pose proof (digits_bounds p) as Bp.
  set (d := Z.pos (digits2_pos p)) in *.
  pose proof (digits_bounds (5 * p)) as B5.
  set (D5 := Z.pos (digits2_pos (5 * p))) in *.
  rewrite Pos2Z.inj_mul in B5.
  assert (Hd : 1 <= d) by (unfold d; lia).
  assert (HD5 : d <= D5 <= 53).
  { split.
    - destruct (Z.le_gt_cases d D5) as [|L]; [assumption|].
      assert (2 ^ D5 <= 2 ^ (d - 1)) by (apply Z.pow_le_mono_r; lia). lia.
    - destruct (Z.le_gt_cases D5 53) as [|L]; [assumption|].
      assert (2 ^ 53 <= 2 ^ (D5 - 1)) by (apply Z.pow_le_mono_r; lia). lia. }
  set (sh := 50 - d + D5).
  assert (Pq : 0 < 2 ^ (53 - D5)) by (apply Z.pow_pos_nonneg; lia).
  set (q := Z.to_pos (5 * Z.pos p * 2 ^ (53 - D5))).
  assert (Hq : Z.pos q = 5 * Z.pos p * 2 ^ (53 - D5)).
  { unfold q. rewrite Z2Pos.id; [reflexivity|]. apply Z.mul_pos_pos; lia. }
  assert (Dq : Z.pos (digits2_pos q) = 53).
  { apply digits_unique. rewrite Hq.
    assert (E1 : 2 ^ (53 - 1) = 2 ^ (D5 - 1) * 2 ^ (53 - D5)).
    { rewrite <- Z.pow_add_r by lia. f_equal. lia. }
    assert (E2 : 2 ^ 53 = 2 ^ D5 * 2 ^ (53 - D5)).
    { rewrite <- Z.pow_add_r by lia. f_equal. lia. }
    rewrite E1, E2. split.
    - apply Z.mul_le_mono_nonneg_r; lia.
    - apply Z.mul_lt_mono_pos_r; lia. }
  assert (Hmul : mul (of_Z (Z.pos p)) ten = S754_finite false q (D5 - 52)).
  { rewrite Hof. unfold mul, ten, SFmul. cbn [xorb].
    rewrite (binary_round_aux_exact false _ _ q sh);
      [| | exact Dq | unfold sh; lia | unfold sh; lia].
    - f_equal. unfold sh. lia.
    - rewrite Pos2Z.inj_mul, Hm, Hq.
      change (Z.pos 5629499534213120) with (5 * 2 ^ 50).
      replace (2 ^ (53 - d)) with (2 ^ (53 - D5) * 2 ^ (D5 - d)).
      2:{ rewrite <- Z.pow_add_r by lia. f_equal. lia. }
      unfold sh. replace (50 - d + D5) with (50 + (D5 - d)) by lia.
      rewrite (Z.pow_add_r 2 50) by lia. ring. }
  rewrite Hmul. unfold int64_of_float64, trunc_float64.
  assert (Hval : (if 0 <=? D5 - 52
                  then Z.shiftl (Z.pos q) (D5 - 52)
                  else Z.shiftr (Z.pos q) (- (D5 - 52))) = 10 * Z.pos p).
  { destruct (Z.leb_spec 0 (D5 - 52)) as [H0|H0].
    - rewrite Z.shiftl_mul_pow2, Hq by lia.
      replace (5 * Z.pos p * 2 ^ (53 - D5) * 2 ^ (D5 - 52))
        with (5 * Z.pos p * (2 ^ (53 - D5) * 2 ^ (D5 - 52))) by ring.
      rewrite <- Z.pow_add_r by lia.
      replace (53 - D5 + (D5 - 52)) with 1 by lia. lia.
    - rewrite Z.shiftr_div_pow2, Hq by lia.
      replace (2 ^ (53 - D5)) with (2 * 2 ^ (- (D5 - 52))).
      2:{ rewrite <- Z.pow_succ_r by lia. f_equal. lia. }
      replace (5 * Z.pos p * (2 * 2 ^ (- (D5 - 52))))
        with (10 * Z.pos p * 2 ^ (- (D5 - 52))) by ring.
      apply Z.div_mul. apply Z.pow_nonzero; lia. }
  rewrite Hval.
  replace (in_int64 (10 * Z.pos p)) with true; [reflexivity|].
  symmetry. unfold in_int64, int64_min, int64_max.
  apply andb_true_intro. split; apply Z.leb_le.
  - lia.
  - assert (2 ^ 53 < 2 ^ 62) by reflexivity.
    change (2 ^ 63) with (2 * 2 ^ 62). lia.
Qed.

(** ** State bookkeeping *)

Lemma new_events_app (st st' : State) (evs : list Event) :
  trace st' = (trace st ++ evs)%list -> new_events st st' = evs.
Proof.
  intros E. unfold new_events. rewrite E. apply drop_app_length.
Qed.


(** Case analysis on the innermost scrutinee of the goal. *)
Ltac inner_case :=
  match goal with
  | |- context [match ?x with _ => _ end] =>
      lazymatch x with
      | context [match _ with _ => _ end] => fail
      | _ => destruct x eqn:?
      end
  end.

Ltac fetch_cases :=
  unfold fetchAndCache, fetchAndCache_enter, fetchAndCache_resume;
  repeat (inner_case; cbn [fst snd pollMu database trace set_pollMu set_database emit]).

Section ServiceFacts.
Context {RT : GoRuntime}.

(** A call that finds the mutex free, reaches the upstream, gets status
    200 with a body that decodes, finds an item with a price that is not
    zero and a store that takes the write, returns nil and leaves the row
    built from that item. *)
Lemma fetchAndCache_accepts apiKey w st apiResp item :
  pollMu st = false ->
  NewRequest_err w = None ->
  Do w = DoResponse http_StatusOK (DecodeOk apiResp) ->
  find_gold18k (BrsApiResponse.Gold apiResp) = Some item ->
  Float64.eqb (BrsApiItem.Price item) Float64.zero = false ->
  Exec_err w = None ->
  fetchAndCache apiKey w st =
    (written apiKey
       {| name := if String.eqb (BrsApiItem.Name item) EmptyString
                  then fallback_name else BrsApiItem.Name item;
          price_rial := int64_of_float64 int64_indefinite
                          (Float64.mul (BrsApiItem.Price item) ten);
          fetched_at := time_Format_RFC3339 (Now w) |} st, None).
Proof.
  intros Hmu Hreq Hdo Hfind Hprice Hexec.
  unfold fetchAndCache, fetchAndCache_enter, fetchAndCache_resume.
  rewrite Hmu, Hreq, Hdo. cbn. rewrite Hfind, Hprice, Hexec.
  unfold written, set_pollMu, set_database, emit. cbn.
  rewrite <- !app_assoc. reflexivity.
Qed.

(** A call that finds the mutex free releases it before it returns. *)
Lemma fetchAndCache_releases apiKey w st :
  pollMu st = false -> pollMu (fst (fetchAndCache apiKey w st)) = false.
Proof.
  intros Hmu. fetch_cases; congruence.
Qed.

(** A call that returns an error has not touched the table, and has
    written nothing. *)
Lemma fetchAndCache_error_keeps apiKey w st e :
  snd (fetchAndCache apiKey w st) = Some e ->
  database (fst (fetchAndCache apiKey w st)) = database st.
Proof.
  fetch_cases; congruence.
Qed.

End ServiceFacts.

(** ** Rejected responses (C1) *)

Lemma find_gold18k_None gold :
  find_gold18k gold = None <->
  (forall item, In item gold -> BrsApiItem.Symbol item <> "IR_GOLD_18K").
Proof.
  induction gold as [|x gold IH]; cbn.
  - split; [intros _ item [] | reflexivity].
  - destruct (String.eqb_spec (BrsApiItem.Symbol x) "IR_GOLD_18K") as [E|N].
    + split; [discriminate|]. intros H. exfalso. exact (H x (or_introl eq_refl) E).
    + rewrite IH. split.
      * intros H item [<-|Hin]; [exact N | exact (H item Hin)].
      * intros H item Hin. apply H. right. exact Hin.
Qed.

Lemma find_gold18k_Some gold item :
  find_gold18k gold = Some item ->
  In item gold /\ BrsApiItem.Symbol item = "IR_GOLD_18K".
Proof.
  induction gold as [|x gold IH]; cbn; [discriminate|].
  destruct (String.eqb_spec (BrsApiItem.Symbol x) "IR_GOLD_18K") as [E|N].
  - intros [= <-]. split; [left; reflexivity | exact E].
  - intros H. destruct (IH H) as [Hin Hs]. split; [right; exact Hin | exact Hs].
Qed.

Section Rejection.
Context {RT : GoRuntime}.

(** C1, as the code has it: when the decoded response has no item with the
    symbol [IR_GOLD_18K], or the first such item has a price equal to zero,
    [fetchAndCache] returns the error [IR_GOLD_18K not found in API
    response], the table is unchanged, and the only effect of the call is
    the request itself: no upsert is executed.  (A price below zero is not
    rejected.) *)
Theorem absent_or_zero_price_rejected apiKey w st apiResp :
  pollMu st = false ->
  NewRequest_err w = None ->
  Do w = DoResponse http_StatusOK (DecodeOk apiResp) ->
  ((forall item, In item (BrsApiResponse.Gold apiResp) ->
                 BrsApiItem.Symbol item <> "IR_GOLD_18K")
   \/ exists item, find_gold18k (BrsApiResponse.Gold apiResp) = Some item
                   /\ Float64.eqb (BrsApiItem.Price item) Float64.zero = true) ->
  snd (fetchAndCache apiKey w st) = Some ErrNotFound
  /\ database (fst (fetchAndCache apiKey w st)) = database st
  /\ new_events st (fst (fetchAndCache apiKey w st))
     = [EvHTTPGet (api_url apiKey) user_agent]
  /\ pollMu (fst (fetchAndCache apiKey w st)) = false.
Proof.
  intros Hmu Hreq Hdo Hbad.
  assert (E : fetchAndCache apiKey w st
              = (set_pollMu false
                   (emit (EvHTTPGet (api_url apiKey) user_agent) (set_pollMu true st)),
                 Some ErrNotFound)).
  { unfold fetchAndCache, fetchAndCache_enter, fetchAndCache_resume.
    rewrite Hmu, Hreq, Hdo. cbn.
    destruct Hbad as [Habs | (item & Hfind & Hzero)].
    - apply find_gold18k_None in Habs. rewrite Habs. reflexivity.
    - rewrite Hfind, Hzero. reflexivity. }
  rewrite E. cbn. repeat split.
  apply new_events_app. reflexivity.
Qed.

End Rejection.

Lemma absent_or_zero_price_rejected_witness :
  snd (fetchAndCache "key" (answering [item18k "gold" (S754_zero true)] t_2026_02_26_noon)
         (st_cached row_sample)) = Some ErrNotFound
  /\ database (fst (fetchAndCache "key"
                      (answering [item18k "gold" (S754_zero true)] t_2026_02_26_noon)
                      (st_cached row_sample)))
     = database (st_cached row_sample).
Proof.
  pose proof (absent_or_zero_price_rejected "key"
                (answering [item18k "gold" (S754_zero true)] t_2026_02_26_noon)
                (st_cached row_sample)
                {| BrsApiResponse.Gold := [item18k "gold" (S754_zero true)] |}
                eq_refl eq_refl eq_refl) as H.
  destruct H as (H1 & H2 & _).
  - right. exists (item18k "gold" (S754_zero true)). split; reflexivity.
  - split; assumption.
Defined.

(** C1 as stated fails: an item with the price -5 is below zero, and the
    call returns nil and replaces the cached row by one with the price
    -50. *)
Lemma negative_price_is_cached :
  let item := item18k "gold" (Float64.of_Z (-5)) in
  let w := answering [item] t_2026_02_26_noon in
  find_gold18k (BrsApiResponse.Gold {| BrsApiResponse.Gold := [item] |}) = Some item
  /\ Float64.ltb (BrsApiItem.Price item) Float64.zero = true
  /\ snd (fetchAndCache "key" w (st_cached row_sample)) = None
  /\ database (fst (fetchAndCache "key" w (st_cached row_sample))) !! "gold_18k"
     = Some {| name := "gold"; price_rial := -50; fetched_at := "2026-02-26T12:00:00Z" |}
  /\ database (fst (fetchAndCache "key" w (st_cached row_sample)))
     <> database (st_cached row_sample).
Proof.
  cbv zeta. split; [reflexivity|]. split; [reflexivity|].
  split; [vm_compute; reflexivity|].
  assert (L : database (fst (fetchAndCache "key"
                (answering [item18k "gold" (Float64.of_Z (-5))] t_2026_02_26_noon)
                (st_cached row_sample))) !! "gold_18k"
     = Some {| name := "gold"; price_rial := -50; fetched_at := "2026-02-26T12:00:00Z" |}).
  { vm_compute. reflexivity. }
  split; [exact L|].
  intros E. rewrite E in L. vm_compute in L. discriminate L.
Qed.

(** ** The display name (C8) *)

Section DisplayName.
Context {RT : GoRuntime}.

(** C8: when the accepted item has an empty name, the row written has the
    fallback name of line 219, the text "طلای 18 عیار"; otherwise it has the
    name of the item, unchanged.  The same name is in the upsert that the
    call executes. *)
Theorem empty_name_replaced_by_fallback apiKey w st apiResp item :
  pollMu st = false ->
  NewRequest_err w = None ->
  Do w = DoResponse http_StatusOK (DecodeOk apiResp) ->
  find_gold18k (BrsApiResponse.Gold apiResp) = Some item ->
  Float64.eqb (BrsApiItem.Price item) Float64.zero = false ->
  Exec_err w = None ->
  exists r,
    database (fst (fetchAndCache apiKey w st)) !! "gold_18k" = Some r
    /\ In (EvExecUpsert "gold_18k" r) (new_events st (fst (fetchAndCache apiKey w st)))
    /\ (BrsApiItem.Name item = EmptyString -> name r = "طلای 18 عیار")
    /\ (BrsApiItem.Name item <> EmptyString -> name r = BrsApiItem.Name item).
Proof.
  intros Hmu Hreq Hdo Hfind Hprice Hexec.
  rewrite (fetchAndCache_accepts apiKey w st apiResp item) by assumption.
  eexists. cbn [fst]. split; [|split; [|split]].
  - unfold written. cbn [database]. apply lookup_insert_eq.
  - erewrite new_events_app by reflexivity. cbn. right. left. reflexivity.
  - cbn. intros ->. reflexivity.
  - cbn. intros Hne. destruct (String.eqb_spec (BrsApiItem.Name item) EmptyString); congruence.
Qed.

End DisplayName.

Lemma empty_name_replaced_by_fallback_witness :
  exists r,
    database (fst (fetchAndCache "key"
                     (answering [item18k EmptyString (Float64.of_Z 4250000)] t_2026_02_26_noon)
                     st_empty)) !! "gold_18k" = Some r
    /\ name r = "طلای 18 عیار"
    /\ String.length (name r) = 20%nat.
Proof.
  destruct (empty_name_replaced_by_fallback "key"
              (answering [item18k EmptyString (Float64.of_Z 4250000)] t_2026_02_26_noon)
              st_empty
              {| BrsApiResponse.Gold := [item18k EmptyString (Float64.of_Z 4250000)] |}
              (item18k EmptyString (Float64.of_Z 4250000))
              eq_refl eq_refl eq_refl eq_refl eq_refl eq_refl)
    as (r & Hr & _ & Hname & _).
  exists r. split; [exact Hr|].
  rewrite (Hname eq_refl). split; reflexivity.
Defined.

(** ** The read handler (C4, C5, C10) *)

Lemma threshold_value : staleThreshold = 300 * 10 ^ 9.
Proof. reflexivity. Qed.

(** Saturation does not change the comparison with the threshold. *)
Lemma Sub_threshold (t u : time.Time) :
  (staleThreshold <? time.Sub t u) = (staleThreshold <? t - u).
Proof.
  unfold time.Sub, time.minDuration, time.maxDuration, int64_min, int64_max.
  rewrite threshold_value.
  destruct (Z.ltb_spec (300 * 10 ^ 9) (t - u));
    destruct (Z.ltb_spec (300 * 10 ^ 9)
                (Z.max (- 2 ^ 63) (Z.min (2 ^ 63 - 1) (t - u)))); try reflexivity; lia.
Qed.

Section ReadHandler.
Context {RT : GoRuntime}.

Lemma handleGold18k_row now st r :
  database st !! "gold_18k" = Some r ->
  handleGold18k now false st =
    {| StatusCode := http_StatusOK;
       ContentType := "application/json";
       body := BodyJSON (JObject
                 [ ("name", JString (name r));
                   ("price", JNumber (price_rial r));
                   ("fetchedAt", JString (fetched_at r));
                   ("stale", JBool (staleThreshold <?
                                    now - default time.zero (time_Parse_RFC3339 (fetched_at r)))) ]) |}.
Proof.
  intros Hrow. unfold handleGold18k, QueryRow_Scan. rewrite Hrow.
  unfold json_Encode. cbn. rewrite Sub_threshold. reflexivity.
Qed.

(** C4: for a stored row whose timestamp reads as the instant [t], every
    read at the instant [now] reports [stale] as [now - t > staleThreshold],
    with a threshold of five minutes; the handler has nothing but [now] and
    the row to compute it from.  So with the same state, a read within the
    threshold reports false and a read beyond it reports true. *)
Theorem stale_computed_at_read_time st r t :
  database st !! "gold_18k" = Some r ->
  time_Parse_RFC3339 (fetched_at r) = Some t ->
  staleThreshold = 5 * 60 * 1000000000
  /\ (forall now, stale_of (handleGold18k now false st)
                  = Some (staleThreshold <? now - t))
  /\ (forall now1 now2,
        now1 - t <= staleThreshold -> staleThreshold < now2 - t ->
        stale_of (handleGold18k now1 false st) = Some false
        /\ stale_of (handleGold18k now2 false st) = Some true).
Proof.
  intros Hrow Hparse.
  assert (S : forall now, stale_of (handleGold18k now false st)
                          = Some (staleThreshold <? now - t)).
  { intros now. rewrite (handleGold18k_row now st r Hrow), Hparse. reflexivity. }
  split; [reflexivity|]. split; [exact S|].
  intros now1 now2 H1 H2. rewrite !S. split; f_equal.
  - apply Z.ltb_ge. exact H1.
  - apply Z.ltb_lt. exact H2.
Qed.

(** C5, as the code has it: when the scan of the row fails, because there
    is no row for [gold_18k] or because the store does not answer, the
    answer is 503, of type text/plain, and its body is the 37 bytes
    [{"error":"no cached price available"}] followed by the line feed that
    [http.Error] adds (034 is the double quote, 010 the line feed); it is
    never a 200.  With a row, and a store that answers, it is 200, of type
    application/json, and its body is the object with the members [name],
    [price], [fetchedAt] and [stale], the first three from the row. *)
Theorem unavailable_without_row now st :
  (forall Query_err,
     Query_err = true \/ database st !! "gold_18k" = None ->
     handleGold18k now Query_err st
     = {| StatusCode := 503;
          ContentType := "text/plain; charset=utf-8";
          body := BodyText
            (String "{" (String "034" ("error" ++ String "034" (":" ++ String "034"
                  ("no cached price available" ++ String "034"
                     ("}" ++ String "010" EmptyString)))))) |})
  /\ (forall r, database st !! "gold_18k" = Some r ->
      exists stale,
        StatusCode (handleGold18k now false st) = 200
        /\ ContentType (handleGold18k now false st) = "application/json"
        /\ body (handleGold18k now false st)
           = BodyJSON (JObject [ ("name", JString (name r));
                                 ("price", JNumber (price_rial r));
                                 ("fetchedAt", JString (fetched_at r));
                                 ("stale", JBool stale) ])).
Proof.
  split.
  - intros Query_err H. unfold handleGold18k, QueryRow_Scan.
    destruct H as [-> | Hnone]; [reflexivity|].
    rewrite Hnone. destruct Query_err; reflexivity.
  - intros r Hrow. rewrite (handleGold18k_row now st r Hrow).
    eexists. split; [reflexivity|]. split; reflexivity.
Qed.

(** C10: for a stored row whose timestamp does not parse, the answer is
    still 200 with the row; [stale] is computed against the zero [Time],
    so it is true as soon as [now] is more than the threshold past it. *)
Theorem unparsable_timestamp_served now st r :
  database st !! "gold_18k" = Some r ->
  time_Parse_RFC3339 (fetched_at r) = None ->
  StatusCode (handleGold18k now false st) = 200
  /\ body (handleGold18k now false st)
     = BodyJSON (JObject [ ("name", JString (name r));
                           ("price", JNumber (price_rial r));
                           ("fetchedAt", JString (fetched_at r));
                           ("stale", JBool (staleThreshold <? now - time.zero)) ])
  /\ (staleThreshold < now - time.zero ->
      stale_of (handleGold18k now false st) = Some true).
Proof.
  intros Hrow Hparse.
  rewrite (handleGold18k_row now st r Hrow), Hparse. cbn [default].
  split; [reflexivity|]. split; [reflexivity|].
  intros H. unfold stale_of. cbn. f_equal. apply Z.ltb_lt. exact H.
Qed.

End ReadHandler.

Lemma st_cached_lookup r : database (st_cached r) !! "gold_18k" = Some r.
Proof. apply lookup_singleton_eq. Qed.

Lemma stale_computed_at_read_time_witness :
  stale_of (handleGold18k (t_2026_02_26_noon + 5 * time.Minute) false (st_cached row_sample))
    = Some false
  /\ stale_of (handleGold18k (t_2026_02_26_noon + 5 * time.Minute + 1) false
                 (st_cached row_sample))
    = Some true.
Proof.
  assert (P : time_Parse_RFC3339 (fetched_at row_sample) = Some t_2026_02_26_noon)
    by (vm_compute; reflexivity).
  destruct (stale_computed_at_read_time (st_cached row_sample) row_sample t_2026_02_26_noon
              (st_cached_lookup row_sample) P) as (_ & _ & H).
  apply H; vm_compute; [discriminate | reflexivity].
Defined.

Lemma unavailable_without_row_witness :
  body (handleGold18k t_2026_02_26_noon false st_empty)
  = BodyText
      (String "{" (String "034" ("error" ++ String "034" (":" ++ String "034"
                  ("no cached price available" ++ String "034"
                     ("}" ++ String "010" EmptyString))))))
  /\ StatusCode (handleGold18k t_2026_02_26_noon false st_empty) = 503
  /\ exists stale,
       body (handleGold18k t_2026_02_26_noon false (st_cached row_sample))
       = BodyJSON (JObject [ ("name", JString "gold");
                             ("price", JNumber 42500000);
                             ("fetchedAt", JString "2026-02-26T12:00:00Z");
                             ("stale", JBool stale) ]).
Proof.
  destruct (unavailable_without_row t_2026_02_26_noon st_empty) as [H _].
  rewrite (H false (or_intror (lookup_empty _))).
  split; [reflexivity|]. split; [reflexivity|].
  destruct (unavailable_without_row t_2026_02_26_noon (st_cached row_sample)) as [_ H'].
  destruct (H' row_sample (st_cached_lookup row_sample)) as (stale & _ & _ & Hb).
  exists stale. exact Hb.
Defined.

(** C5 as stated fails twice.  The body of the 503 is not exactly the text
    [{"error":"no cached price available"}]: a line feed follows it.  And
    a row that exists is not always answered with a 200: when the store
    does not answer the query, the answer is the same 503. *)
Lemma unavailable_body_and_store_failure :
  body (handleGold18k t_2026_02_26_noon false st_empty)
  <> BodyText
       (String "{" (String "034" ("error" ++ String "034" (":" ++ String "034"
          ("no cached price available" ++ String "034" "}")))))
  /\ database (st_cached row_sample) !! "gold_18k" = Some row_sample
  /\ StatusCode (handleGold18k t_2026_02_26_noon true (st_cached row_sample)) = 503
  /\ StatusCode (handleGold18k t_2026_02_26_noon true (st_cached row_sample)) <> 200.
Proof.
  split; [|split; [|split]].
  - vm_compute. intros H. discriminate H.
  - apply st_cached_lookup.
  - reflexivity.
  - vm_compute. intros H. discriminate H.
Qed.

Lemma unparsable_timestamp_served_witness :
  StatusCode (handleGold18k t_2026_02_26_noon false (st_cached row_unparsable)) = 200
  /\ stale_of (handleGold18k t_2026_02_26_noon false (st_cached row_unparsable)) = Some true.
Proof.
  assert (P : time_Parse_RFC3339 (fetched_at row_unparsable) = None)
    by (vm_compute; reflexivity).
  destruct (unparsable_timestamp_served t_2026_02_26_noon (st_cached row_unparsable)
              row_unparsable (st_cached_lookup row_unparsable) P) as (H1 & _ & H3).
  split; [exact H1 | apply H3; vm_compute; reflexivity].
Defined.

(** C10 as stated fails: [time.Parse] accepts more than RFC 3339.  The
    text 2026-02-26T1:00:00Z has an hour of one digit, which RFC 3339 does
    not allow and the strict reader of the [time] package rejects; the
    general reader that [time.Parse] then tries accepts it as one o'clock.
    A minute after one o'clock the row is served with [stale] false,
    although the read is far more than the threshold past the zero
    [Time]. *)
Lemma lenient_timestamp_served_fresh :
  let now := t_2026_02_26_noon - 660 * time.Minute + time.Minute in
  RFC3339.parseRFC3339 (fetched_at row_one_digit_hour) = None
  /\ time_Parse_RFC3339 (fetched_at row_one_digit_hour)
     = Some (t_2026_02_26_noon - 660 * time.Minute)
  /\ staleThreshold < now - time.zero
  /\ StatusCode (handleGold18k now false (st_cached row_one_digit_hour)) = 200
  /\ stale_of (handleGold18k now false (st_cached row_one_digit_hour)) = Some false
  /\ stale_of (handleGold18k now false (st_cached row_one_digit_hour)) <> Some true.
Proof.
  cbv zeta. repeat split; try (vm_compute; reflexivity).
  vm_compute. intros H. discriminate H.
Qed.

(** Two more texts that are not RFC 3339 and that [time.Parse] accepts: a
    comma before the fraction of a second, and a zone offset of 24
    hours. *)
Example lenient_texts_parse :
  RFC3339.parseRFC3339 "2026-02-26T12:00:00,5Z" = None
  /\ time_Parse_RFC3339 "2026-02-26T12:00:00,5Z" = Some (t_2026_02_26_noon + 500000000)
  /\ RFC3339.parseRFC3339 "2026-02-26T12:00:00+24:00" = None
  /\ time_Parse_RFC3339 "2026-02-26T12:00:00+24:00"
     = Some (t_2026_02_26_noon - 1440 * time.Minute).
Proof. repeat split; vm_compute; reflexivity. Qed.

(** ** The overlap guard (C7) *)

Section Overlap.
Context {RT : GoRuntime}.

Lemma sys_step_guarded apiKey s s' :
  guarded s -> sys_step apiKey s s' -> guarded s'.
Proof.
  unfold guarded. intros G Hstep. destruct Hstep as [w s st' err E | w s st' E | w s n st' err F E];
    cbn [sys_state in_flight].
  - unfold fetchAndCache_enter in E.
    destruct (pollMu (sys_state s)) eqn:Hmu.
    + injection E as <- _. cbn. rewrite Hmu. exact G.
    + destruct (NewRequest_err w); [|discriminate].
      injection E as <- _. cbn. exact G.
  - unfold fetchAndCache_enter in E.
    destruct (pollMu (sys_state s)) eqn:Hmu; [discriminate|].
    destruct (NewRequest_err w); [discriminate|].
    injection E as <-. cbn. rewrite G. reflexivity.
  - destruct (pollMu (sys_state s)) eqn:Hmu; [|congruence].
    assert (n = 0%nat) as -> by congruence.
    assert (Hrel : pollMu (fst (fetchAndCache_resume w (sys_state s))) = false).
    { unfold fetchAndCache_resume.
      repeat (inner_case; cbn [fst snd pollMu database trace set_pollMu set_database emit]);
        reflexivity. }
    rewrite E in Hrel. cbn in Hrel. rewrite Hrel. reflexivity.
Qed.

Lemma reachable_guarded apiKey d s :
  rtc (sys_step apiKey) (sys_init d) s -> guarded s.
Proof.
  intros Hrtc.
  assert (G0 : guarded (sys_init d)) by reflexivity.
  induction Hrtc as [x | x y z Hxy _ IH]; [exact G0|].
  apply IH. exact (sys_step_guarded apiKey x y G0 Hxy).
Qed.


End Overlap.


(** ** The poll interval (C9) *)

Lemma digits_value_None acc ds :
  forallb (fun c => bool_decide (is_Some (digit c))) ds = false ->
  strconv.digits_value acc ds = None.
Proof.
  revert acc. induction ds as [|c ds IH]; intros acc; cbn; [discriminate|].
  destruct (digit c) as [d|]; cbn; [|reflexivity].
  intros H. apply IH. exact H.
Qed.

Lemma length_chars s : length (list_ascii_of_string s) = String.length s.
Proof. induction s as [|c s IH]; cbn; congruence. Qed.

(** On digits followed somewhere by a byte that is not a digit, the loop
    of [ParseUint] ends in the syntax error, or in the range error when the
    digits before that byte already overflow. *)
Lemma ParseUint_loop_invalid n ds :
  forallb (fun c => bool_decide (is_Some (digit c))) ds = false ->
  strconv.ParseUint_loop n ds = (0, Some strconv.ErrSyntax)
  \/ strconv.ParseUint_loop n ds = (strconv.maxUint64, Some strconv.ErrRange).
Proof.
  revert n. induction ds as [|c ds IH]; intros n; cbn [forallb strconv.ParseUint_loop];
    [discriminate|].
  destruct (digit c) as [d|]; cbn; [|left; reflexivity].
  intros H.
  destruct (strconv.maxUint64 `div` 10 + 1 <=? n); [right; reflexivity|].
  destruct (strconv.maxUint64 <? n * 10 + d); [right; reflexivity|].
  apply IH. exact H.
Qed.

(** What [Atoi] gives for a text that is not empty and has not the syntax
    of an integer. *)
Lemma Atoi_invalid s :
  s <> EmptyString ->
  strconv.integer_syntax s = false ->
  (strconv.Atoi s = (0, Some strconv.ErrSyntax)
   \/ strconv.Atoi s = (int64_max, Some strconv.ErrRange)
   \/ strconv.Atoi s = (int64_min, Some strconv.ErrRange))
  /\ ((String.length s < 19)%nat -> strconv.Atoi s = (0, Some strconv.ErrSyntax)).
Proof.
  intros Hne. unfold strconv.integer_syntax, strconv.Atoi.
  rewrite length_chars.
  assert (Hlen : (0 < String.length s)%nat) by (destruct s; [contradiction | cbn; lia]).
  assert (Hcs : list_ascii_of_string s <> []) by (destruct s; [contradiction | discriminate]).
  intros Hsyn.
  assert (Fast : (let '(neg, ds) := strconv.sign_and_digits (list_ascii_of_string s) in
                  match ds with
                  | [] => (0, Some strconv.ErrSyntax)
                  | _ :: _ =>
                      match strconv.digits_value 0 ds with
                      | Some n => (if neg then - n else n, None)
                      | None => (0, Some strconv.ErrSyntax)
                      end
                  end) = (0, Some strconv.ErrSyntax)).
  { destruct (strconv.sign_and_digits (list_ascii_of_string s)) as [neg ds].
    cbn [snd] in Hsyn. destruct ds as [|c ds]; [reflexivity|].
    rewrite (digits_value_None 0 (c :: ds) Hsyn). reflexivity. }
  assert (Slow : strconv.ParseInt (list_ascii_of_string s) = (0, Some strconv.ErrSyntax)
                 \/ strconv.ParseInt (list_ascii_of_string s)
                    = (int64_max, Some strconv.ErrRange)
                 \/ strconv.ParseInt (list_ascii_of_string s)
                    = (int64_min, Some strconv.ErrRange)).
  { unfold strconv.ParseInt.
    destruct (list_ascii_of_string s) as [|c0 cs0] eqn:Ecs; [contradiction|].
    destruct (strconv.sign_and_digits (c0 :: cs0)) as [neg ds].
    cbn [snd] in Hsyn. destruct ds as [|c ds]; [left; reflexivity|].
    unfold strconv.ParseUint.
    destruct (ParseUint_loop_invalid 0 (c :: ds) Hsyn) as [-> | ->];
      [left; reflexivity|].
    destruct neg; [right; right | right; left]; reflexivity. }
  split.
  - destruct ((0 <? Z.of_nat (String.length s)) && (Z.of_nat (String.length s) <? 19));
      [left; exact Fast | exact Slow].
  - intros Hshort.
    replace (0 <? Z.of_nat (String.length s)) with true by (symmetry; apply Z.ltb_lt; lia).
    replace (Z.of_nat (String.length s) <? 19) with true by (symmetry; apply Z.ltb_lt; lia).
    exact Fast.
Qed.

(** What [Atoi] gives whenever it returns an error. *)
Lemma Atoi_error s :
  s <> EmptyString ->
  snd (strconv.Atoi s) <> None ->
  (strconv.Atoi s = (0, Some strconv.ErrSyntax)
   \/ strconv.Atoi s = (int64_max, Some strconv.ErrRange)
   \/ strconv.Atoi s = (int64_min, Some strconv.ErrRange))
  /\ ((String.length s < 19)%nat -> strconv.Atoi s = (0, Some strconv.ErrSyntax)).
Proof.
  intros Hne. unfold strconv.Atoi. rewrite length_chars.
  assert (Hlen : (0 < String.length s)%nat) by (destruct s; [contradiction | cbn; lia]).
  destruct ((0 <? Z.of_nat (String.length s)) && (Z.of_nat (String.length s) <? 19)) eqn:Efast.
  - destruct (strconv.sign_and_digits (list_ascii_of_string s)) as [neg ds].
    destruct ds as [|c ds]; [intros _; split; [left|]; reflexivity|].
    destruct (strconv.digits_value 0 (c :: ds)); cbn [snd]; [contradiction|].
    intros _. split; [left|]; reflexivity.
  - intros Herr. split.
    + unfold strconv.ParseInt in Herr |- *.
      destruct (list_ascii_of_string s) as [|c0 cs0]; [left; reflexivity|].
      destruct (strconv.sign_and_digits (c0 :: cs0)) as [neg ds].
      destruct (strconv.ParseUint ds) as [un [[|]|]]; [left; reflexivity | |].
      all: destruct (negb neg && (2 ^ 63 <=? un)); [right; left; reflexivity|].
      all: destruct (neg && (2 ^ 63 <? un)); [right; right; reflexivity|].
      all: cbn [snd] in Herr; contradiction.
    + intros Hshort. exfalso.
      apply andb_false_iff in Efast. destruct Efast as [E|E].
      * apply Z.ltb_ge in E. lia.
      * apply Z.ltb_ge in E. lia.
Qed.

Section Configuration.
Context {RT : GoRuntime}.

(** C9, as the code has it: when [POLL_INTERVAL] is set to a text that is
    not empty and is not an integer (it has not the syntax of one, or
    [strconv.Atoi] returns an error for it), [Atoi] returns an error, which
    [main] drops, and the poll interval is not the 60 seconds of the
    default: it is 0 seconds (always so for a text of less than 19 bytes),
    or -1 second when the text starts with digits that overflow before the
    end or before the byte that is not a digit is read.  A start that gets
    as far as the ticker panics in [time.NewTicker].  (An empty value is
    read as unset.) *)
Theorem invalid_poll_interval_panics env s :
  env !! "POLL_INTERVAL" = Some s ->
  s <> EmptyString ->
  strconv.integer_syntax s = false \/ snd (strconv.Atoi s) <> None ->
  snd (strconv.Atoi (envOrDefault env "POLL_INTERVAL" "60")) <> None
  /\ (pollInterval_of env = 0 \/ pollInterval_of env = - time.Second)
  /\ ((String.length s < 19)%nat ->
      strconv.Atoi (envOrDefault env "POLL_INTERVAL" "60") = (0, Some strconv.ErrSyntax)
      /\ pollInterval_of env = 0)
  /\ pollInterval_of env <> 60 * time.Second
  /\ (forall w st,
        os_Getenv env "BRS_API_KEY" <> EmptyString ->
        main_start env None None w st = Panic "non-positive interval for NewTicker").
Proof.
  intros Henv Hne Hbad.
  assert (E : envOrDefault env "POLL_INTERVAL" "60" = s).
  { unfold envOrDefault, os_Getenv. rewrite Henv. cbn.
    destruct (String.eqb_spec s EmptyString); [contradiction | reflexivity]. }
  assert (Hboth : (strconv.Atoi s = (0, Some strconv.ErrSyntax)
                   \/ strconv.Atoi s = (int64_max, Some strconv.ErrRange)
                   \/ strconv.Atoi s = (int64_min, Some strconv.ErrRange))
                  /\ ((String.length s < 19)%nat ->
                      strconv.Atoi s = (0, Some strconv.ErrSyntax))).
  { destruct Hbad as [Hsyn | Herr];
      [exact (Atoi_invalid s Hne Hsyn) | exact (Atoi_error s Hne Herr)]. }
  destruct Hboth as [Hcases Hshort].
  assert (P : pollInterval_of env = 0 \/ pollInterval_of env = - time.Second).
  { unfold pollInterval_of. rewrite E.
    destruct Hcases as [-> | [-> | ->]];
      [left | right | left]; vm_compute; reflexivity. }
  split; [|split; [exact P | split; [|split]]].
  - rewrite E. destruct Hcases as [-> | [-> | ->]]; discriminate.
  - intros Hlen. rewrite E. split; [exact (Hshort Hlen)|].
    unfold pollInterval_of. rewrite E, (Hshort Hlen). reflexivity.
  - destruct P as [-> | ->]; discriminate.
  - intros w st Hkey. unfold main_start.
    destruct (String.eqb_spec (os_Getenv env "BRS_API_KEY") EmptyString); [contradiction|].
    destruct (fetchAndCache _ w _) as [st1 err].
    destruct P as [-> | ->]; reflexivity.
Qed.

(** Without [POLL_INTERVAL], the interval is the default of 60 seconds. *)
Lemma default_poll_interval env :
  env !! "POLL_INTERVAL" = None -> pollInterval_of env = 60 * time.Second.
Proof.
  intros Henv. unfold pollInterval_of, envOrDefault, os_Getenv. rewrite Henv.
  reflexivity.
Qed.

End Configuration.

(** C9 as stated fails for the empty text: it is not an integer, and
    [envOrDefault] reads it as unset, so the interval is the default of 60
    seconds and the ticker starts. *)
Lemma empty_poll_interval_is_default :
  env_with EmptyString !! "POLL_INTERVAL" = Some EmptyString
  /\ strconv.integer_syntax EmptyString = false
  /\ pollInterval_of (env_with EmptyString) = 60 * time.Second
  /\ NewTicker_panics (pollInterval_of (env_with EmptyString)) = false
  /\ exists st, main_start (env_with EmptyString) None None
                  (unreachable t_2026_02_26_noon) st_empty
                = Polling (60 * time.Second) "8080" st.
Proof.
  split; [vm_compute; reflexivity|].
  split; [reflexivity|].
  assert (P : pollInterval_of (env_with EmptyString) = 60 * time.Second)
    by (vm_compute; reflexivity).
  split; [exact P|]. split; [rewrite P; reflexivity|].
  eexists. vm_compute. reflexivity.
Qed.

Lemma invalid_poll_interval_panics_witness :
  pollInterval_of (env_with "1m") = 0
  /\ main_start (env_with "1m") None None (unreachable t_2026_02_26_noon) st_empty
     = Panic "non-positive interval for NewTicker".
Proof.
  assert (L : env_with "1m" !! "POLL_INTERVAL" = Some "1m") by (vm_compute; reflexivity).
  assert (N : "1m" <> EmptyString) by discriminate.
  assert (Short : (String.length "1m" < 19)%nat) by (cbn; lia).
  destruct (invalid_poll_interval_panics (env_with "1m") "1m" L N (or_introl eq_refl))
    as (_ & _ & H3 & _ & H5).
  split; [exact (proj2 (H3 Short))|]. apply H5. vm_compute. discriminate.
Defined.

(** Twenty nines and a letter: the digits overflow before the letter is
    read, [Atoi] gives the largest int with the range error, and the
    interval wraps to -1 second. *)
Example overflow_before_invalid_byte :
  strconv.integer_syntax "99999999999999999999x" = false
  /\ strconv.Atoi "99999999999999999999x" = (int64_max, Some strconv.ErrRange)
  /\ pollInterval_of (env_with "99999999999999999999x") = - time.Second
  /\ main_start (env_with "99999999999999999999x") None None
       (unreachable t_2026_02_26_noon) st_empty
     = Panic "non-positive interval for NewTicker".
Proof. repeat split; vm_compute; reflexivity. Qed.

(** ** Last known good (C2) *)

Section LastKnownGood.
Context {RT : GoRuntime}.

(** A call that finds the mutex free and returns nil has written a row. *)
Lemma fetchAndCache_nil_written apiKey w st :
  pollMu st = false ->
  snd (fetchAndCache apiKey w st) = None ->
  exists r, fst (fetchAndCache apiKey w st) = written apiKey r st.
Proof.
  intros Hmu.
  unfold fetchAndCache, fetchAndCache_enter, fetchAndCache_resume. rewrite Hmu.
  repeat (inner_case; cbn [fst snd]); try discriminate.
  all: intros _; eexists (Build_Row _ _ _);
    unfold written, set_pollMu, set_database, emit; cbn;
    rewrite <- !app_assoc; reflexivity.
Qed.

Lemma tick_result apiKey w st :
  snd (tick apiKey w st) = snd (fetchAndCache apiKey w st).
Proof.
  unfold tick. destruct (fetchAndCache apiKey w st) as [st' [e|]]; reflexivity.
Qed.

Lemma tick_database apiKey w st :
  database (fst (tick apiKey w st)) = database (fst (fetchAndCache apiKey w st)).
Proof.
  unfold tick. destruct (fetchAndCache apiKey w st) as [st' [e|]]; reflexivity.
Qed.

Lemma tick_releases apiKey w st :
  pollMu st = false -> pollMu (fst (tick apiKey w st)) = false.
Proof.
  intros Hmu. pose proof (fetchAndCache_releases apiKey w st Hmu) as H.
  unfold tick. destruct (fetchAndCache apiKey w st) as [st' [e|]]; exact H.
Qed.

(** A failed tick leaves the table as it was. *)
Lemma tick_error_keeps apiKey w st :
  snd (tick apiKey w st) <> None ->
  database (fst (tick apiKey w st)) = database st.
Proof.
  rewrite tick_result, tick_database.
  destruct (snd (fetchAndCache apiKey w st)) as [e|] eqn:E; [|congruence].
  intros _. exact (fetchAndCache_error_keeps apiKey w st e E).
Qed.

Lemma poller_cons apiKey w ws st :
  poller apiKey (w :: ws) st =
    (fst (poller apiKey ws (fst (tick apiKey w st))),
     snd (tick apiKey w st) :: snd (poller apiKey ws (fst (tick apiKey w st)))).
Proof.
  cbn [poller]. destruct (tick apiKey w st) as [st1 err].
  cbn [fst snd]. destruct (poller apiKey ws st1) as [st2 errs]. reflexivity.
Qed.

Lemma poller_app apiKey ws1 ws2 st :
  fst (poller apiKey (ws1 ++ ws2) st)
  = fst (poller apiKey ws2 (fst (poller apiKey ws1 st))).
Proof.
  revert st. induction ws1 as [|w ws1 IH]; intros st; [reflexivity|].
  rewrite <- app_comm_cons, !poller_cons. cbn [fst]. apply IH.
Qed.

Lemma poller_releases apiKey ws st :
  pollMu st = false -> pollMu (fst (poller apiKey ws st)) = false.
Proof.
  revert st. induction ws as [|w ws IH]; intros st Hmu; [exact Hmu|].
  rewrite poller_cons. cbn [fst]. apply IH, tick_releases, Hmu.
Qed.

(** Ticks that all fail leave the table as it was. *)
Lemma poller_errors_keep apiKey ws st :
  Forall (fun err => err <> None) (snd (poller apiKey ws st)) ->
  database (fst (poller apiKey ws st)) = database st.
Proof.
  revert st. induction ws as [|w ws IH]; intros st; [reflexivity|].
  rewrite poller_cons. cbn [fst snd]. intros H. inversion H as [|? ? Hw Hws]; subst.
  rewrite (IH _ Hws). apply tick_error_keeps, Hw.
Qed.

(** C2: after any sequence of ticks, each one succeeding or failing, the
    table is the one left by the last tick that returned nil, whose row for
    [gold_18k] is the row that tick wrote; the failed ticks after it (and
    before it) change nothing.  If every tick fails, the table is the
    initial one. *)
Theorem last_successful_fetch_is_served apiKey ws st :
  pollMu st = false ->
  (Forall (fun err => err <> None) (snd (poller apiKey ws st)) ->
   database (fst (poller apiKey ws st)) = database st)
  /\ (forall pre w post,
        ws = (pre ++ w :: post)%list ->
        snd (tick apiKey w (fst (poller apiKey pre st))) = None ->
        Forall (fun err => err <> None)
          (snd (poller apiKey post (fst (tick apiKey w (fst (poller apiKey pre st)))))) ->
        exists r,
          In (EvExecUpsert "gold_18k" r)
            (new_events (fst (poller apiKey pre st))
               (fst (tick apiKey w (fst (poller apiKey pre st)))))
          /\ database (fst (tick apiKey w (fst (poller apiKey pre st))))
             = <["gold_18k" := r]> (database (fst (poller apiKey pre st)))
          /\ database (fst (poller apiKey ws st)) !! "gold_18k" = Some r
          /\ database (fst (poller apiKey ws st))
             = database (fst (tick apiKey w (fst (poller apiKey pre st))))).
Proof.
  intros Hmu. split; [apply poller_errors_keep|].
  intros pre w post -> Hok Hpost.
  set (st1 := fst (poller apiKey pre st)) in *.
  assert (Hmu1 : pollMu st1 = false) by (apply poller_releases, Hmu).
  assert (Hnil : snd (fetchAndCache apiKey w st1) = None)
    by (rewrite <- tick_result; exact Hok).
  destruct (fetchAndCache_nil_written apiKey w st1 Hmu1 Hnil) as [r Hr].
  assert (Ht : fst (tick apiKey w st1) = written apiKey r st1).
  { unfold tick. destruct (fetchAndCache apiKey w st1) as [st' err].
    cbn in Hnil, Hr. subst. reflexivity. }
  assert (Hfin : database (fst (poller apiKey (pre ++ w :: post) st))
                 = database (fst (tick apiKey w st1))).
  { rewrite poller_app, poller_cons. cbn [fst]. fold st1.
    apply poller_errors_keep. exact Hpost. }
  exists r. rewrite Hfin, Ht. repeat split.
  - erewrite new_events_app by reflexivity. cbn. right. left. reflexivity.
  - unfold written. cbn [database]. apply lookup_insert_eq.
Qed.

End LastKnownGood.

Lemma last_successful_fetch_is_served_witness :
  exists r, database (fst (poller "key" ticks_sample st_empty)) !! "gold_18k" = Some r.
Proof.
  destruct (last_successful_fetch_is_served "key" ticks_sample st_empty eq_refl) as [_ H].
  destruct (H [unreachable t_2026_02_26_noon]
              (answering [item18k "gold" (Float64.of_Z 4250000)]
                 (t_2026_02_26_noon + time.Minute))
              [unreachable (t_2026_02_26_noon + 2 * time.Minute);
               unreachable (t_2026_02_26_noon + 3 * time.Minute)]
              eq_refl) as (r & _ & _ & Hr & _).
  - vm_compute. reflexivity.
  - vm_compute. repeat constructor; discriminate.
  - exists r. exact Hr.
Defined.

(** ** The converted price (C3, C6) *)

(** Rounding never leaves more than 53 digits, and the exponent of the
    result is at most one above the larger of the exponent given and the
    exponent of the format for that magnitude. *)
Lemma binary_round_aux_bounded M E :
  binary_round_aux prec emax false (Z.pos M) E loc_Exact = S754_zero false
  \/ binary_round_aux prec emax false (Z.pos M) E loc_Exact = S754_infinity false
  \/ exists m e,
       binary_round_aux prec emax false (Z.pos M) E loc_Exact = S754_finite false m e
       /\ Z.pos m < 2 ^ 53
       /\ e <= Z.max E (fexp prec emax (Z.pos (digits2_pos M) + E)) + 1.
Proof.
  pose proof (digits_bounds M) as BM.
  set (D := Z.pos (digits2_pos M)) in *.
  assert (HD : 1 <= D) by (unfold D; lia).
  unfold binary_round_aux, shr_fexp. cbn [Zdigits2 shr_record_of_loc]. fold D.
  set (e1 := fexp prec emax (D + E)).
  assert (He1 : D + E - 53 <= e1 /\ - 1074 <= e1).
  { unfold e1, fexp, SpecFloat.emin, prec, emax. lia. }
  pose (tail := fun (m1 e' : Z) =>
            let '(mrs'', e'') :=
              shr (Build_shr_record m1 false false) e'
                  (fexp prec emax (Zdigits2 m1 + e') - e') in
            match shr_m mrs'' with
            | 0 => S754_zero false
            | Z.pos m => if e'' <=? emax - prec then S754_finite false m e''
                         else S754_infinity false
            | Z.neg _ => S754_nan
            end).
  assert (Tail : forall m1 : Z, 0 <= m1 <= 2 ^ 53 -> forall e', - 1074 <= e' ->
            tail m1 e' = S754_zero false
            \/ tail m1 e' = S754_infinity false
            \/ exists m e, tail m1 e' = S754_finite false m e
                           /\ Z.pos m < 2 ^ 53 /\ e <= e' + 1).
  { intros m1 Hm1 e' He'. unfold tail.
    destruct (Z.eq_dec m1 (2 ^ 53)) as [->|Hne].
    - change (2 ^ 53) with 9007199254740992. cbn [Zdigits2].
      change (Z.pos (digits2_pos 9007199254740992)) with 54.
      replace (fexp prec emax (54 + e') - e') with 1
        by (unfold fexp, SpecFloat.emin, prec, emax; lia).
      cbn [shr SpecFloat.iter_pos shr_1 shr_m].
      destruct (e' + 1 <=? emax - prec); [|right; left; reflexivity].
      right. right. eexists _, _. split; [reflexivity|]. split; [reflexivity | lia].
    - destruct m1 as [|m1|m1]; [| |lia].
      + cbn [Zdigits2].
        assert (Hn : fexp prec emax (0 + e') - e' <= 0)
          by (unfold fexp, SpecFloat.emin, prec, emax; lia).
        destruct (fexp prec emax (0 + e') - e') as [|n|n]; [| lia |];
          cbn [shr shr_m]; left; reflexivity.
      + cbn [Zdigits2].
        pose proof (digits_bounds m1) as B1.
        set (d1 := Z.pos (digits2_pos m1)) in *.
        assert (Hd1 : d1 <= 53).
        { destruct (Z.le_gt_cases d1 53) as [|L]; [assumption|].
          assert (2 ^ 53 <= 2 ^ (d1 - 1)) by (apply Z.pow_le_mono_r; lia). lia. }
        assert (Hn : fexp prec emax (d1 + e') - e' <= 0)
          by (unfold fexp, SpecFloat.emin, prec, emax; lia).
        destruct (fexp prec emax (d1 + e') - e') as [|n|n]; [| lia |];
          cbn [shr shr_m];
          (destruct (e' <=? emax - prec); [|right; left; reflexivity]);
          right; right; exists m1, e'; (split; [reflexivity | lia]). }
  assert (Weaken : forall m1 e',
            e' <= Z.max E e1 ->
            (tail m1 e' = S754_zero false
             \/ tail m1 e' = S754_infinity false
             \/ exists m e, tail m1 e' = S754_finite false m e
                            /\ Z.pos m < 2 ^ 53 /\ e <= e' + 1) ->
            tail m1 e' = S754_zero false
            \/ tail m1 e' = S754_infinity false
            \/ exists m e, tail m1 e' = S754_finite false m e
                           /\ Z.pos m < 2 ^ 53 /\ e <= Z.max E e1 + 1).
  { intros m1 e' He' [H | [H | (m & e & H & Hm & He)]];
      [left; exact H | right; left; exact H |].
    right. right. exists m, e. split; [exact H|]. split; [exact Hm | lia]. }
  destruct (Z.le_gt_cases (e1 - E) 0) as [Hn|Hn].
  - (* no shift: the mantissa has 53 digits or less *)
    assert (HM : Z.pos M < 2 ^ 53).
    { assert (2 ^ D <= 2 ^ 53) by (apply Z.pow_le_mono_r; lia). lia. }
    assert (Hshr : shr (Build_shr_record (Z.pos M) false false) E (e1 - E)
                   = (Build_shr_record (Z.pos M) false false, E)).
    { destruct (e1 - E) as [|n|n]; [reflexivity | lia | reflexivity]. }
    rewrite Hshr. cbn [shr_m loc_of_shr_record round_nearest_even].
    apply (Weaken (Z.pos M) E ltac:(lia)).
    apply (Tail (Z.pos M) ltac:(lia) E ltac:(lia)).
  - rewrite shr_nonneg by lia.
    remember (Nat.iter (Z.to_nat (e1 - E)) shr_1 (Build_shr_record (Z.pos M) false false))
      as r1 eqn:Hr1.
    assert (Pn : 0 < 2 ^ (e1 - E)) by (apply Z.pow_pos_nonneg; lia).
    assert (Hq : 0 <= shr_m r1 < 2 ^ 53).
    { subst r1. rewrite shr_iter_m by (cbn; lia). cbn [shr_m].
      rewrite Z2Nat.id by lia. split.
      - apply Z.div_pos; lia.
      - apply Z.div_lt_upper_bound; [lia|].
        rewrite <- Z.pow_add_r by lia.
        apply Z.lt_le_trans with (2 ^ D); [lia|].
        apply Z.pow_le_mono_r; lia. }
    replace (E + (e1 - E)) with e1 by lia.
    destruct (round_nearest_even_step (shr_m r1) (loc_of_shr_record r1)) as [Hr|Hr];
      rewrite Hr.
    + apply (Weaken (shr_m r1) e1 ltac:(lia)).
      apply (Tail (shr_m r1) ltac:(lia) e1 ltac:(lia)).
    + apply (Weaken (shr_m r1 + 1) e1 ltac:(lia)).
      apply (Tail (shr_m r1 + 1) ltac:(lia) e1 ltac:(lia)).
Qed.

Lemma binary_round_aux_opp s M E l :
  binary_round_aux prec emax (negb s) M E l
  = SFopp (binary_round_aux prec emax s M E l).
Proof.
  unfold binary_round_aux.
  destruct (shr_fexp prec emax M E l) as [r1 e1].
  destruct (shr_fexp prec emax _ e1 loc_Exact) as [r2 e2].
  destruct (shr_m r2); [reflexivity | | reflexivity].
  destruct (e2 <=? emax - prec); reflexivity.
Qed.

Lemma mul_ten_opp p : mul (SFopp p) ten = SFopp (mul p ten).
Proof.
  destruct p as [s|s| |s m e]; try (destruct s; reflexivity); [reflexivity|].
  unfold mul, ten, SFmul, SFopp at 1. rewrite !xorb_false_r.
  apply binary_round_aux_opp.
Qed.

(** The tenfold of a positive float64 is a zero, the positive infinity or
    a positive number. *)
Lemma mul_ten_positive m e :
  mul (S754_finite false m e) ten = S754_zero false
  \/ mul (S754_finite false m e) ten = S754_infinity false
  \/ exists m' e', mul (S754_finite false m e) ten = S754_finite false m' e'
                   /\ Z.pos m' < 2 ^ 53
                   /\ (Z.pos (digits2_pos m) < 53 -> e = - 1074 -> e' <= - 1070).
Proof.
  unfold mul, ten, SFmul. cbn [xorb].
  destruct (binary_round_aux_bounded (m * 5629499534213120) (e + -49))
    as [H | [H | (m' & e' & H & Hm & He)]];
    [left; exact H | right; left; exact H |].
  right. right. exists m', e'. split; [exact H|]. split; [exact Hm|].
  intros Hd ->.
  pose proof (digits_bounds m) as Bm.
  pose proof (digits_bounds (m * 5629499534213120)) as BM.
  set (D := Z.pos (digits2_pos (m * 5629499534213120))) in *.
  assert (Hm52 : Z.pos m < 2 ^ 52).
  { apply Z.lt_le_trans with (2 ^ Z.pos (digits2_pos m)); [lia|].
    apply Z.pow_le_mono_r; lia. }
  assert (HD : D <= 105).
  { destruct (Z.le_gt_cases D 105) as [|L]; [assumption|].
    assert (2 ^ 105 <= 2 ^ (D - 1)) by (apply Z.pow_le_mono_r; lia).
    rewrite Pos2Z.inj_mul in BM.
    assert (Z.pos m * 5629499534213120 < 2 ^ 52 * 2 ^ 53).
    { apply Z.lt_trans with (2 ^ 52 * 5629499534213120).
      - apply Z.mul_lt_mono_pos_r; [reflexivity | exact Hm52].
      - apply Z.mul_lt_mono_pos_l; reflexivity. }
    change (2 ^ 105) with (2 ^ 52 * 2 ^ 53) in *. lia. }
  unfold fexp, SpecFloat.emin, prec, emax in He. lia.
Qed.

(** A valid price whose tenfold, as float64, is at least one and below
    2^63 converts to an int64 that is at least one, whatever the platform
    does out of range. *)
Lemma convert_tenfold_at_least_one indefinite p :
  valid p = true ->
  leb one (mul p ten) = true ->
  ltb (mul p ten) two63 = true ->
  1 <= int64_of_float64 indefinite (mul p ten) <= int64_max.
Proof.
  intros Hv Hle Hlt. destruct p as [s|s| |s m e].
  - destruct s; discriminate Hle.
  - destruct s; [discriminate Hle | discriminate Hlt].
  - discriminate Hle.
  - destruct s.
    + exfalso.
      change (S754_finite true m e) with (SFopp (S754_finite false m e)) in Hle.
      rewrite mul_ten_opp in Hle.
      destruct (mul_ten_positive m e) as [H | [H | (m' & e' & H & _)]];
        rewrite H in Hle; discriminate Hle.
    + assert (Hc : Z.pos (digits2_pos m) = 53 /\ - 1074 <= e
                   \/ Z.pos (digits2_pos m) < 53 /\ e = - 1074).
      { unfold valid, valid_binary, bounded, canonical_mantissa in Hv.
        apply andb_prop in Hv. destruct Hv as [Hc _].
        apply Z.eqb_eq in Hc. unfold fexp, SpecFloat.emin, prec, emax in Hc. lia. }
      destruct Hc as [[Dm He] | [Dm He]].
      * destruct (mul_ten_normal false m e Dm He)
          as [Hinf | (m' & e' & Hfin & Dm' & He')];
          [rewrite Hinf in Hlt; discriminate Hlt|].
        rewrite Hfin in Hle, Hlt |- *.
        destruct (lt_two63 false m' e' Dm' Hlt) as [Hs | He10]; [discriminate Hs|].
        assert (He52 : - 52 <= e').
        { unfold leb, SFleb, one in Hle. rewrite SFcompare_positive in Hle.
          destruct (Z.compare_spec (-52) e'); [lia | lia | discriminate Hle]. }
        destruct (trunc_normal_positive m' e' Dm') as (z & Hz & Bz); [lia|].
        unfold int64_of_float64. rewrite Hz.
        replace (in_int64 z) with true.
        -- unfold int64_max. lia.
        -- symmetry. unfold in_int64, int64_min, int64_max.
           apply andb_true_intro. split; apply Z.leb_le; lia.
      * exfalso.
        destruct (mul_ten_positive m e) as [H | [H | (m' & e' & H & _ & Hsub)]].
        -- rewrite H in Hle. discriminate Hle.
        -- rewrite H in Hlt. discriminate Hlt.
        -- rewrite H in Hle. specialize (Hsub Dm He).
           unfold leb, SFleb, one in Hle. rewrite SFcompare_positive in Hle.
           destruct (Z.compare_spec (-52) e'); [lia | lia | discriminate Hle].
Qed.

(** The tenfold of a positive price that is not at least one is below
    one. *)
Lemma positive_tenfold_below_one p :
  ltb zero p = true ->
  leb one (mul p ten) = false ->
  ltb (mul p ten) one = true.
Proof.
  intros Hpos Hle. destruct p as [s|s| |s m e]; try discriminate Hpos.
  - destruct s; [discriminate Hpos | discriminate Hle].
  - destruct s; [discriminate Hpos|].
    destruct (mul_ten_positive m e) as [H | [H | (m' & e' & H & _)]];
      rewrite H in Hle |- *; [reflexivity | discriminate Hle |].
    unfold leb, SFleb, ltb, SFltb, one in Hle |- *.
    rewrite SFcompare_positive in Hle |- *.
    destruct (Z.compare_spec (-52) e') as [E|L|G];
      [| discriminate Hle |].
    + rewrite <- E. rewrite Z.compare_refl.
      rewrite Z.compare_refl in Hle || idtac.
      rewrite (Pos.compare_antisym m' 4503599627370496) in Hle.
      destruct (m' ?= 4503599627370496)%positive; [discriminate Hle | reflexivity | discriminate Hle].
    + destruct (Z.compare_spec e' (-52)); [lia | reflexivity | lia].
Qed.

(** A positive float64 whose tenfold is below one converts to 0. *)
Lemma convert_below_one indefinite p :
  ltb zero p = true ->
  ltb (mul p ten) one = true ->
  eqb p zero = false /\ int64_of_float64 indefinite (mul p ten) = 0.
Proof.
  intros Hpos Hlt. destruct p as [s|s| |s m e]; try discriminate Hpos.
  - destruct s; [discriminate Hpos | discriminate Hlt].
  - destruct s; [discriminate Hpos|]. split; [reflexivity|].
    unfold mul, ten, SFmul in Hlt |- *. cbn [xorb] in Hlt |- *.
    destruct (binary_round_aux_bounded (m * 5629499534213120) (e + -49))
      as [Hz | [Hinf | (m' & e' & Hfin & Hm' & _)]].
    + rewrite Hz. reflexivity.
    + rewrite Hinf in Hlt. discriminate Hlt.
    + rewrite Hfin in Hlt |- *.
      unfold ltb, SFltb, one in Hlt. rewrite SFcompare_positive in Hlt.
      assert (Hsmall : e' < 0 /\ Z.pos m' < 2 ^ (- e')).
      { destruct (Z.compare_spec e' (-52)) as [Ee|L|G]; [| |discriminate Hlt].
        - destruct (Pos.compare_spec m' 4503599627370496) as [E|L|G];
            [discriminate Hlt | | discriminate Hlt].
          apply Pos2Z.pos_lt_pos in L. split; [lia|]. rewrite Ee. exact L.
        - split; [lia|].
          apply Z.lt_le_trans with (2 ^ 53); [exact Hm'|].
          apply Z.pow_le_mono_r; lia. }
      destruct Hsmall as [He' Hm''].
      unfold int64_of_float64, trunc_float64.
      replace (0 <=? e') with false by (symmetry; apply Z.leb_gt; exact He').
      rewrite Z.shiftr_div_pow2 by lia.
      rewrite Z.div_small by lia. reflexivity.
Qed.

Section Conversion.
Context {RT : GoRuntime}.

(** C3, as the code has it: for every accepted price the price written is
    [int64(price * 10)].  It is strictly positive (and an int64) when the
    price is a valid float64 whose tenfold, as float64, is at least 1 and
    below 2^63; it is 0 for every positive price whose tenfold is not at
    least 1.  (So a stored price need not be positive: a positive price
    under a tenth is written as 0, a negative one as a negative number.) *)
Theorem accepted_price_positive_when_tenfold_at_least_one apiKey w st apiResp item :
  pollMu st = false ->
  NewRequest_err w = None ->
  Do w = DoResponse http_StatusOK (DecodeOk apiResp) ->
  find_gold18k (BrsApiResponse.Gold apiResp) = Some item ->
  Float64.eqb (BrsApiItem.Price item) Float64.zero = false ->
  Exec_err w = None ->
  exists r,
    database (fst (fetchAndCache apiKey w st)) !! "gold_18k" = Some r
    /\ price_rial r
       = int64_of_float64 int64_indefinite (Float64.mul (BrsApiItem.Price item) ten)
    /\ (Float64.valid (BrsApiItem.Price item) = true ->
        Float64.leb one (Float64.mul (BrsApiItem.Price item) ten) = true ->
        Float64.ltb (Float64.mul (BrsApiItem.Price item) ten) two63 = true ->
        0 < price_rial r <= int64_max)
    /\ (Float64.ltb Float64.zero (BrsApiItem.Price item) = true ->
        Float64.leb one (Float64.mul (BrsApiItem.Price item) ten) = false ->
        price_rial r = 0).
Proof.
  intros Hmu Hreq Hdo Hfind Hprice Hexec.
  rewrite (fetchAndCache_accepts apiKey w st apiResp item) by assumption.
  eexists. cbn [fst]. split; [|split; [|split]].
  - unfold written. cbn [database]. apply lookup_insert_eq.
  - reflexivity.
  - cbn [price_rial]. intros Hv Hle Hlt.
    pose proof (convert_tenfold_at_least_one int64_indefinite _ Hv Hle Hlt). lia.
  - cbn [price_rial]. intros Hpos Hle.
    pose proof (positive_tenfold_below_one _ Hpos Hle) as Hlt.
    exact (proj2 (convert_below_one int64_indefinite _ Hpos Hlt)).
Qed.

(** C6: the price written is ten times the upstream price: for every whole
    price [n] from 1 up to a fifth of 2^53 (where the product is exact in
    float64) the row holds [10 * n]; 4250000 gives 42500000. *)
Theorem price_converted_times_ten apiKey w st apiResp item n :
  pollMu st = false ->
  NewRequest_err w = None ->
  Do w = DoResponse http_StatusOK (DecodeOk apiResp) ->
  find_gold18k (BrsApiResponse.Gold apiResp) = Some item ->
  Exec_err w = None ->
  BrsApiItem.Price item = Float64.of_Z n ->
  1 <= n -> 5 * n < 2 ^ 53 ->
  exists r,
    database (fst (fetchAndCache apiKey w st)) !! "gold_18k" = Some r
    /\ price_rial r = int64_of_float64 int64_indefinite (Float64.mul (Float64.of_Z n) ten)
    /\ price_rial r = 10 * n
    /\ (n = 4250000 -> price_rial r = 42500000).
Proof.
  intros Hmu Hreq Hdo Hfind Hexec Hprice H1 H5.
  assert (Hnz : Float64.eqb (BrsApiItem.Price item) Float64.zero = false).
  { rewrite Hprice. destruct n as [|p|p]; try lia.
    destruct (of_Z_small p) as (m & -> & _); [lia | reflexivity]. }
  rewrite (fetchAndCache_accepts apiKey w st apiResp item) by assumption.
  eexists. cbn [fst]. split; [|split; [|split]].
  - unfold written. cbn [database]. apply lookup_insert_eq.
  - cbn [price_rial]. rewrite Hprice. reflexivity.
  - cbn [price_rial]. rewrite Hprice. apply mul_ten_exact; assumption.
  - intros ->. cbn [price_rial]. rewrite Hprice.
    rewrite mul_ten_exact by lia. reflexivity.
Qed.

End Conversion.

Lemma accepted_price_positive_when_tenfold_at_least_one_witness :
  Float64.leb one price_0_5 = false
  /\ exists r,
       database (fst (fetchAndCache "key"
                        (answering [item18k "gold" price_0_5] t_2026_02_26_noon)
                        st_empty)) !! "gold_18k" = Some r
       /\ price_rial r = 5
       /\ 0 < price_rial r <= int64_max.
Proof.
  split; [reflexivity|].
  destruct (accepted_price_positive_when_tenfold_at_least_one "key"
              (answering [item18k "gold" price_0_5] t_2026_02_26_noon)
              st_empty
              {| BrsApiResponse.Gold := [item18k "gold" price_0_5] |}
              (item18k "gold" price_0_5)
              eq_refl eq_refl eq_refl eq_refl eq_refl eq_refl)
    as (r & Hr & Hval & Hpos & _).
  exists r. split; [exact Hr|]. split.
  - rewrite Hval. vm_compute. reflexivity.
  - apply Hpos; reflexivity.
Defined.

(** A tenth of a toman is the smallest price of the kind: its tenfold is
    1 in float64, and it is cached as 1. *)
Example tenth_is_cached_as_one :
  Float64.leb one price_0_1 = false
  /\ Float64.leb one (Float64.mul price_0_1 ten) = true
  /\ database (fst (fetchAndCache "key"
                      (answering [item18k "gold" price_0_1] t_2026_02_26_noon)
                      st_empty)) !! "gold_18k"
     = Some {| name := "gold"; price_rial := 1; fetched_at := "2026-02-26T12:00:00Z" |}.
Proof. repeat split; vm_compute; reflexivity. Qed.

Lemma price_converted_times_ten_witness :
  exists r,
    database (fst (fetchAndCache "key"
                     (answering [item18k "gold" (Float64.of_Z 4250000)] t_2026_02_26_noon)
                     st_empty)) !! "gold_18k" = Some r
    /\ price_rial r = 42500000.
Proof.
  assert (B1 : 1 <= 4250000) by lia.
  assert (B5 : 5 * 4250000 < 2 ^ 53) by reflexivity.
  destruct (price_converted_times_ten "key"
              (answering [item18k "gold" (Float64.of_Z 4250000)] t_2026_02_26_noon)
              st_empty
              {| BrsApiResponse.Gold := [item18k "gold" (Float64.of_Z 4250000)] |}
              (item18k "gold" (Float64.of_Z 4250000)) 4250000
              eq_refl eq_refl eq_refl eq_refl eq_refl eq_refl B1 B5)
    as (r & Hr & _ & _ & H).
  exists r. split; [exact Hr | apply H; reflexivity].
Defined.

(** C3 as stated fails: the price 0.05 is positive and passes the check of
    [fetchAndCache], and the row written has the price 0. *)
Lemma small_price_is_cached_as_zero :
  let item := item18k "gold" price_0_05 in
  let w := answering [item] t_2026_02_26_noon in
  Float64.valid (BrsApiItem.Price item) = true
  /\ Float64.ltb Float64.zero (BrsApiItem.Price item) = true
  /\ Float64.eqb (BrsApiItem.Price item) Float64.zero = false
  /\ snd (fetchAndCache "key" w st_empty) = None
  /\ database (fst (fetchAndCache "key" w st_empty)) !! "gold_18k"
     = Some {| name := "gold"; price_rial := 0; fetched_at := "2026-02-26T12:00:00Z" |}
  /\ ~ (exists r, database (fst (fetchAndCache "key" w st_empty)) !! "gold_18k" = Some r
                  /\ 0 < price_rial r).
Proof.
  cbv zeta.
  assert (L : database (fst (fetchAndCache "key"
                (answering [item18k "gold" price_0_05] t_2026_02_26_noon) st_empty))
              !! "gold_18k"
     = Some {| name := "gold"; price_rial := 0; fetched_at := "2026-02-26T12:00:00Z" |}).
  { vm_compute. reflexivity. }
  split; [reflexivity|]. split; [reflexivity|]. split; [reflexivity|].
  split; [vm_compute; reflexivity|]. split; [exact L|].
  intros (r & Hr & Hpos). rewrite L in Hr. injection Hr as <-. cbn in Hpos. lia.
Qed.

(** ** The service at work *)

(** With the concrete runtime: the upstream answers 4250000 at noon; a read
    one minute later serves 42500000 as fresh, a read six minutes later
    serves the same row as stale, and a failed tick in between changes
    nothing. *)
Example fresh_then_stale :
  let st1 := fst (tick "key" (answering [item18k EmptyString (Float64.of_Z 4250000)]
                                t_2026_02_26_noon) st_empty) in
  let st2 := fst (tick "key" (unreachable (t_2026_02_26_noon + 2 * time.Minute)) st1) in
  database st1 !! "gold_18k"
    = Some {| name := fallback_name; price_rial := 42500000;
              fetched_at := "2026-02-26T12:00:00Z" |}
  /\ stale_of (handleGold18k (t_2026_02_26_noon + time.Minute) false st1) = Some false
  /\ database st2 = database st1
  /\ stale_of (handleGold18k (t_2026_02_26_noon + 6 * time.Minute) false st2) = Some true.
Proof.
  cbv zeta. repeat split; vm_compute; reflexivity.
Qed.

(** * Further properties of the code *)

(** ** [fetchAndCache]: when it succeeds, and what a failure leaves *)

Section FetchOutcomes.
Context {RT : GoRuntime}.

(** X1: a call that finds the mutex free returns nil exactly when every
    stage passes: the request is created, the upstream answers 200 with a
    body that decodes, the first [IR_GOLD_18K] item has a price that is not
    zero, and the store takes the upsert. *)
Theorem fetch_nil_iff_all_stages_pass apiKey w st :
  pollMu st = false ->
  snd (fetchAndCache apiKey w st) = None
  <-> (NewRequest_err w = None
       /\ Exec_err w = None
       /\ exists apiResp item,
            Do w = DoResponse http_StatusOK (DecodeOk apiResp)
            /\ find_gold18k (BrsApiResponse.Gold apiResp) = Some item
            /\ Float64.eqb (BrsApiItem.Price item) Float64.zero = false).
Proof.
  intros Hmu. split.
  - unfold fetchAndCache, fetchAndCache_enter, fetchAndCache_resume. rewrite Hmu.
    destruct (NewRequest_err w) as [c|]; [discriminate|]. cbn [fst snd].
    destruct (Do w) as [c|code [c|apiResp]]; [discriminate| |].
    + destruct (negb (code =? http_StatusOK)); discriminate.
    + destruct (code =? http_StatusOK) eqn:Hcode; [|discriminate]. cbn [negb].
      apply Z.eqb_eq in Hcode. subst code.
      destruct (find_gold18k (BrsApiResponse.Gold apiResp)) as [item|] eqn:Hfind;
        [|discriminate].
      destruct (Float64.eqb (BrsApiItem.Price item) Float64.zero) eqn:Hz; [discriminate|].
      destruct (Exec_err w) as [c|]; [discriminate|].
      intros _. split; [reflexivity|]. split; [reflexivity|].
      exists apiResp, item. repeat split; assumption.
  - intros (Hreq & Hexec & apiResp & item & Hdo & Hfind & Hz).
    rewrite (fetchAndCache_accepts apiKey w st apiResp item) by assumption.
    reflexivity.
Qed.

(** X2: any status other than 200, another 2xx included, is an error that
    carries the status, whatever the body holds: one request, no upsert,
    the table unchanged, the mutex released. *)
Theorem other_status_rejected apiKey w st code body :
  pollMu st = false ->
  NewRequest_err w = None ->
  Do w = DoResponse code body ->
  code <> 200 ->
  snd (fetchAndCache apiKey w st) = Some (ErrAPIStatus code)
  /\ database (fst (fetchAndCache apiKey w st)) = database st
  /\ new_events st (fst (fetchAndCache apiKey w st))
     = [EvHTTPGet (api_url apiKey) user_agent]
  /\ pollMu (fst (fetchAndCache apiKey w st)) = false.
Proof.
  intros Hmu Hreq Hdo Hcode.
  unfold fetchAndCache, fetchAndCache_enter, fetchAndCache_resume.
  rewrite Hmu, Hreq, Hdo. cbn [fst snd].
  replace (code =? http_StatusOK) with false
    by (symmetry; apply Z.eqb_neq; exact Hcode).
  cbn. repeat split. apply new_events_app. reflexivity.
Qed.

(** X3: when the store refuses the upsert, the call returns the upsert
    error with its cause; the upsert was attempted with the row built from
    the item, the table is unchanged, no update is logged, and the mutex is
    released. *)
Theorem refused_upsert_keeps_table apiKey w st apiResp item cause :
  pollMu st = false ->
  NewRequest_err w = None ->
  Do w = DoResponse http_StatusOK (DecodeOk apiResp) ->
  find_gold18k (BrsApiResponse.Gold apiResp) = Some item ->
  Float64.eqb (BrsApiItem.Price item) Float64.zero = false ->
  Exec_err w = Some cause ->
  snd (fetchAndCache apiKey w st) = Some (ErrDBUpsert cause)
  /\ database (fst (fetchAndCache apiKey w st)) = database st
  /\ new_events st (fst (fetchAndCache apiKey w st))
     = [ EvHTTPGet (api_url apiKey) user_agent;
         EvExecUpsert "gold_18k"
           {| name := if String.eqb (BrsApiItem.Name item) EmptyString
                      then fallback_name else BrsApiItem.Name item;
              price_rial := int64_of_float64 int64_indefinite
                              (Float64.mul (BrsApiItem.Price item) ten);
              fetched_at := time_Format_RFC3339 (Now w) |} ]
  /\ pollMu (fst (fetchAndCache apiKey w st)) = false.
Proof.
  intros Hmu Hreq Hdo Hfind Hz Hexec.
  unfold fetchAndCache, fetchAndCache_enter, fetchAndCache_resume.
  rewrite Hmu, Hreq, Hdo. cbn [fst snd]. cbn [negb Z.eqb http_StatusOK].
  change (negb (http_StatusOK =? http_StatusOK)) with false. cbn iota.
  rewrite Hfind, Hz, Hexec. cbn. repeat split.
  apply new_events_app. cbn. rewrite <- app_assoc. reflexivity.
Qed.

(** X4: when the request cannot be created, nothing reaches the network:
    the call returns that error and the state is exactly the one it
    found. *)
Theorem uncreated_request_changes_nothing apiKey w st cause :
  pollMu st = false ->
  NewRequest_err w = Some cause ->
  fetchAndCache apiKey w st = (st, Some (ErrCreatingRequest cause)).
Proof.
  intros Hmu Hreq. unfold fetchAndCache, fetchAndCache_enter. rewrite Hmu, Hreq.
  destruct st as [mu db tr]. cbn in Hmu. subst mu. reflexivity.
Qed.

(** X5: whatever a call does, it touches no row but [gold_18k], and it
    never removes the row of [gold_18k]; the same holds for any run of the
    poller. *)
Theorem only_gold_18k_row_changes apiKey ws st :
  (forall k, k <> "gold_18k" ->
             database (fst (poller apiKey ws st)) !! k = database st !! k)
  /\ (is_Some (database st !! "gold_18k") ->
      is_Some (database (fst (poller apiKey ws st)) !! "gold_18k")).
Proof.
  assert (One : forall w st0,
            (forall k, k <> "gold_18k" ->
                       database (fst (fetchAndCache apiKey w st0)) !! k = database st0 !! k)
            /\ (is_Some (database st0 !! "gold_18k") ->
                is_Some (database (fst (fetchAndCache apiKey w st0)) !! "gold_18k"))).
  { intros w st0. split.
    - intros k Hk. fetch_cases; try reflexivity.
      all: apply lookup_insert_ne; congruence.
    - intros Hsome. fetch_cases; try exact Hsome.
      all: rewrite lookup_insert_eq; eexists; reflexivity. }
  revert st. induction ws as [|w ws IH]; intros st; [split; [reflexivity | tauto]|].
  rewrite poller_cons. cbn [fst].
  destruct (IH (fst (tick apiKey w st))) as [IH1 IH2].
  destruct (One w st) as [O1 O2].
  split.
  - intros k Hk. rewrite (IH1 k Hk), tick_database. exact (O1 k Hk).
  - intros Hsome. apply IH2. rewrite tick_database. exact (O2 Hsome).
Qed.

End FetchOutcomes.

Lemma fetch_nil_iff_all_stages_pass_witness :
  snd (fetchAndCache "key" (answering [item18k "gold" (Float64.of_Z 4250000)] t_2026_02_26_noon)
         st_empty) = None.
Proof.
  apply (fetch_nil_iff_all_stages_pass "key"
           (answering [item18k "gold" (Float64.of_Z 4250000)] t_2026_02_26_noon)
           st_empty eq_refl).
  split; [reflexivity|]. split; [reflexivity|].
  exists {| BrsApiResponse.Gold := [item18k "gold" (Float64.of_Z 4250000)] |},
         (item18k "gold" (Float64.of_Z 4250000)).
  repeat split.
Defined.

Lemma other_status_rejected_witness :
  snd (fetchAndCache "key"
         (answering_status 204 [item18k "gold" (Float64.of_Z 4250000)] t_2026_02_26_noon)
         (st_cached row_sample)) = Some (ErrAPIStatus 204)
  /\ database (fst (fetchAndCache "key"
                      (answering_status 204 [item18k "gold" (Float64.of_Z 4250000)]
                         t_2026_02_26_noon)
                      (st_cached row_sample)))
     = database (st_cached row_sample).
Proof.
  assert (N : 204 <> 200) by discriminate.
  destruct (other_status_rejected "key"
              (answering_status 204 [item18k "gold" (Float64.of_Z 4250000)] t_2026_02_26_noon)
              (st_cached row_sample) 204 _ eq_refl eq_refl eq_refl N) as (H1 & H2 & _).
  split; assumption.
Defined.

Lemma refused_upsert_keeps_table_witness :
  snd (fetchAndCache "key"
         (store_refusing [item18k "gold" (Float64.of_Z 4250000)] t_2026_02_26_noon)
         (st_cached row_sample)) = Some (ErrDBUpsert "disk I/O error")
  /\ database (fst (fetchAndCache "key"
                      (store_refusing [item18k "gold" (Float64.of_Z 4250000)]
                         t_2026_02_26_noon)
                      (st_cached row_sample)))
     = database (st_cached row_sample).
Proof.
  destruct (refused_upsert_keeps_table "key"
              (store_refusing [item18k "gold" (Float64.of_Z 4250000)] t_2026_02_26_noon)
              (st_cached row_sample)
              {| BrsApiResponse.Gold := [item18k "gold" (Float64.of_Z 4250000)] |}
              (item18k "gold" (Float64.of_Z 4250000)) "disk I/O error"
              eq_refl eq_refl eq_refl eq_refl eq_refl eq_refl) as (H1 & H2 & _).
  split; assumption.
Defined.

Lemma uncreated_request_changes_nothing_witness :
  fetchAndCache "key"
    {| NewRequest_err := Some "invalid control character in URL";
       Do := DoError "unused"; Exec_err := None; Now := t_2026_02_26_noon |}
    (st_cached row_sample)
  = (st_cached row_sample, Some (ErrCreatingRequest "invalid control character in URL")).
Proof.
  apply uncreated_request_changes_nothing; reflexivity.
Defined.

Lemma only_gold_18k_row_changes_witness :
  is_Some (database (fst (poller "key" ticks_sample (st_cached row_sample))) !! "gold_18k")
  /\ database (fst (poller "key" ticks_sample (st_cached row_sample))) !! "silver" = None.
Proof.
  destruct (only_gold_18k_row_changes "key" ticks_sample (st_cached row_sample)) as [H1 H2].
  split.
  - apply H2. exists row_sample. apply lookup_singleton_eq.
  - rewrite H1 by discriminate. vm_compute. reflexivity.
Defined.

(** ** The poller loop: one request per tick, never a skip *)

Lemma count_requests_app evs1 evs2 :
  count_requests (evs1 ++ evs2) = (count_requests evs1 + count_requests evs2)%nat.
Proof. unfold count_requests. rewrite List.filter_app, length_app. reflexivity. Qed.

Lemma count_upserts_app evs1 evs2 :
  count_upserts (evs1 ++ evs2) = (count_upserts evs1 + count_upserts evs2)%nat.
Proof. unfold count_upserts. rewrite List.filter_app, length_app. reflexivity. Qed.

Lemma updated_line_not_skip name priceRial : updated_line name priceRial <> skip_line.
Proof. unfold updated_line, skip_line. cbn. discriminate. Qed.

Lemma failed_line_not_skip text : "[poller] Fetch failed: " ++ text <> skip_line.
Proof. unfold skip_line. cbn. discriminate. Qed.

Section PollerEffects.
Context {RT : GoRuntime}.

(** What one tick adds to the trace when it finds the mutex free. *)
Lemma tick_events apiKey w st :
  pollMu st = false ->
  exists evs,
    trace (fst (tick apiKey w st)) = (trace st ++ evs)%list
    /\ count_requests evs = (if can_request w then 1 else 0)%nat
    /\ (count_upserts evs <= count_requests evs)%nat
    /\ ~ In (EvLog skip_line) evs.
Proof.
  intros Hmu.
  unfold tick, fetchAndCache, fetchAndCache_enter, fetchAndCache_resume, can_request.
  rewrite Hmu.
  repeat (inner_case; cbn [fst snd pollMu database trace set_pollMu set_database emit]).
  all: rewrite <- ?app_assoc; eexists; (split; [reflexivity|]); cbn;
    (split; [reflexivity|]); (split; [lia|]);
    intros Hin; repeat (destruct Hin as [Hin|Hin]; try discriminate Hin);
    try contradiction;
    try (injection Hin as Hin; first [ exact (updated_line_not_skip _ _ Hin)
                                     | exact (failed_line_not_skip _ Hin) ]).
Qed.

Lemma poller_events apiKey ws st :
  pollMu st = false ->
  exists evs,
    trace (fst (poller apiKey ws st)) = (trace st ++ evs)%list
    /\ count_requests evs = length (List.filter can_request ws)
    /\ (count_upserts evs <= count_requests evs)%nat
    /\ ~ In (EvLog skip_line) evs.
Proof.
  revert st. induction ws as [|w ws IH]; intros st Hmu.
  - exists []. cbn. rewrite app_nil_r. repeat split; auto.
  - rewrite poller_cons. cbn [fst].
    destruct (tick_events apiKey w st Hmu) as (e1 & T1 & R1 & U1 & S1).
    destruct (IH (fst (tick apiKey w st)) (tick_releases apiKey w st Hmu))
      as (e2 & T2 & R2 & U2 & S2).
    exists (e1 ++ e2)%list. split; [|split; [|split]].
    + rewrite T2, T1, <- app_assoc. reflexivity.
    + rewrite count_requests_app, R1, R2. cbn [List.filter].
      destruct (can_request w); reflexivity.
    + rewrite count_upserts_app, count_requests_app. lia.
    + intros Hin. apply in_app_or in Hin. tauto.
Qed.

(** X6: in the loop as [main] runs it, one tick after the other from a free
    mutex, no tick is ever skipped: the skip line is never logged, every
    tick whose request can be created sends exactly one request, and there
    are never more upserts than requests; every tick has its result. *)
Theorem sequential_ticks_never_skip apiKey ws st :
  pollMu st = false ->
  count_requests (new_events st (fst (poller apiKey ws st)))
  = length (List.filter can_request ws)
  /\ (count_upserts (new_events st (fst (poller apiKey ws st)))
      <= count_requests (new_events st (fst (poller apiKey ws st))))%nat
  /\ ~ In (EvLog skip_line) (new_events st (fst (poller apiKey ws st)))
  /\ length (snd (poller apiKey ws st)) = length ws.
Proof.
  intros Hmu.
  destruct (poller_events apiKey ws st Hmu) as (evs & T & R & U & S).
  rewrite (new_events_app _ _ _ T).
  split; [exact R|]. split; [exact U|]. split; [exact S|].
  clear. revert st. induction ws as [|w ws IH]; intros st; [reflexivity|].
  rewrite poller_cons. cbn [snd length]. rewrite IH. reflexivity.
Qed.

End PollerEffects.

Lemma sequential_ticks_never_skip_witness :
  count_requests (new_events st_empty (fst (poller "key" ticks_sample st_empty))) = 4%nat
  /\ (count_upserts (new_events st_empty (fst (poller "key" ticks_sample st_empty))) <= 4)%nat.
Proof.
  destruct (sequential_ticks_never_skip "key" ticks_sample st_empty eq_refl)
    as (H1 & H2 & _).
  rewrite H1 in H2. split; [exact H1 | exact H2].
Defined.

(** ** Which item is taken, and what a read after the fetch serves *)

Lemma find_gold18k_first pre item post :
  Forall (fun it => BrsApiItem.Symbol it <> "IR_GOLD_18K") pre ->
  BrsApiItem.Symbol item = "IR_GOLD_18K" ->
  find_gold18k (pre ++ item :: post) = Some item.
Proof.
  intros Hpre Hitem. induction Hpre as [|x pre Hx _ IH]; cbn.
  - rewrite Hitem. reflexivity.
  - destruct (String.eqb_spec (BrsApiItem.Symbol x) "IR_GOLD_18K"); [contradiction|].
    exact IH.
Qed.

Section ReadAfterFetch.
Context {RT : GoRuntime}.

(** X7: the first item with the symbol [IR_GOLD_18K] is the one cached,
    wherever it stands in the list and whatever follows it, a second item
    with the same symbol included. *)
Theorem first_matching_item_is_cached apiKey w st pre item post :
  pollMu st = false ->
  NewRequest_err w = None ->
  Do w = DoResponse http_StatusOK
           (DecodeOk {| BrsApiResponse.Gold := pre ++ item :: post |}) ->
  Exec_err w = None ->
  Forall (fun it => BrsApiItem.Symbol it <> "IR_GOLD_18K") pre ->
  BrsApiItem.Symbol item = "IR_GOLD_18K" ->
  Float64.eqb (BrsApiItem.Price item) Float64.zero = false ->
  snd (fetchAndCache apiKey w st) = None
  /\ database (fst (fetchAndCache apiKey w st)) !! "gold_18k"
     = Some {| name := if String.eqb (BrsApiItem.Name item) EmptyString
                       then fallback_name else BrsApiItem.Name item;
               price_rial := int64_of_float64 int64_indefinite
                               (Float64.mul (BrsApiItem.Price item) ten);
               fetched_at := time_Format_RFC3339 (Now w) |}.
Proof.
  intros Hmu Hreq Hdo Hexec Hpre Hitem Hz.
  rewrite (fetchAndCache_accepts apiKey w st _ item Hmu Hreq Hdo
             (find_gold18k_first pre item post Hpre Hitem) Hz Hexec).
  split; [reflexivity|]. unfold written. cbn [fst database]. apply lookup_insert_eq.
Qed.

(** X8: a read after a successful fetch serves what that fetch wrote,
    whatever was cached before: 200 with the name (or the fallback), the
    converted price, the timestamp text of the fetch, and [stale] computed
    from that text. *)
Theorem read_after_fetch_serves_fetched apiKey w st apiResp item now :
  pollMu st = false ->
  NewRequest_err w = None ->
  Do w = DoResponse http_StatusOK (DecodeOk apiResp) ->
  find_gold18k (BrsApiResponse.Gold apiResp) = Some item ->
  Float64.eqb (BrsApiItem.Price item) Float64.zero = false ->
  Exec_err w = None ->
  handleGold18k now false (fst (fetchAndCache apiKey w st)) =
    {| StatusCode := 200;
       ContentType := "application/json";
       body := BodyJSON (JObject
         [ ("name", JString (if String.eqb (BrsApiItem.Name item) EmptyString
                             then fallback_name else BrsApiItem.Name item));
           ("price", JNumber (int64_of_float64 int64_indefinite
                                (Float64.mul (BrsApiItem.Price item) ten)));
           ("fetchedAt", JString (time_Format_RFC3339 (Now w)));
           ("stale", JBool (staleThreshold <?
                            now - default time.zero
                                    (time_Parse_RFC3339 (time_Format_RFC3339 (Now w))))) ]) |}.
Proof.
  intros Hmu Hreq Hdo Hfind Hz Hexec.
  rewrite (fetchAndCache_accepts apiKey w st apiResp item) by assumption.
  cbn [fst].
  rewrite (handleGold18k_row now _
             {| name := if String.eqb (BrsApiItem.Name item) EmptyString
                        then fallback_name else BrsApiItem.Name item;
                price_rial := int64_of_float64 int64_indefinite
                                (Float64.mul (BrsApiItem.Price item) ten);
                fetched_at := time_Format_RFC3339 (Now w) |}).
  - reflexivity.
  - unfold written. cbn [database]. apply lookup_insert_eq.
Qed.

(** X9: the handler answers 503 exactly when the store fails to answer or
    has no row for [gold_18k], a failing store being told apart from an
    empty one by nothing in the response; in every other case it answers
    200. *)
Theorem unavailable_iff_no_row_or_store_error now Query_err st :
  (StatusCode (handleGold18k now Query_err st) = 503
   <-> (Query_err = true \/ database st !! "gold_18k" = None))
  /\ (StatusCode (handleGold18k now Query_err st) = 503 ->
      handleGold18k now Query_err st
      = http_Error no_cached_price http_StatusServiceUnavailable)
  /\ (StatusCode (handleGold18k now Query_err st) = 503
      \/ StatusCode (handleGold18k now Query_err st) = 200).
Proof.
  unfold handleGold18k, QueryRow_Scan.
  destruct Query_err; cbn.
  - split; [tauto|]. split; [reflexivity | left; reflexivity].
  - destruct (database st !! "gold_18k") as [r|]; cbn.
    + split; [|split; [discriminate | right; reflexivity]].
      split; [discriminate | intros [H|H]; discriminate H].
    + split; [tauto|]. split; [reflexivity | left; reflexivity].
Qed.

(** X10: for a stored row, once a read reports it stale every later read of
    the same state does too: a row goes back to fresh only through a
    write.  This holds whether or not its timestamp parses. *)
Theorem stale_stays_stale st r now1 now2 :
  database st !! "gold_18k" = Some r ->
  now1 <= now2 ->
  stale_of (handleGold18k now1 false st) = Some true ->
  stale_of (handleGold18k now2 false st) = Some true.
Proof.
  intros Hrow Hle.
  rewrite !(handleGold18k_row _ st r Hrow). unfold stale_of. cbn.
  intros [= H]. f_equal. apply Z.ltb_lt in H. apply Z.ltb_lt. lia.
Qed.

End ReadAfterFetch.

Lemma first_matching_item_is_cached_witness :
  exists r,
    database (fst (fetchAndCache "key"
                     (answering ([item_other "IR_COIN_EMAMI" (Float64.of_Z 90000000)]
                                 ++ item18k "gold" (Float64.of_Z 4250000)
                                 :: [item18k "later" (Float64.of_Z 1)])
                        t_2026_02_26_noon)
                     st_empty)) !! "gold_18k" = Some r
    /\ name r = "gold".
Proof.
  assert (Hpre : Forall (fun it => BrsApiItem.Symbol it <> "IR_GOLD_18K")
                   [item_other "IR_COIN_EMAMI" (Float64.of_Z 90000000)]).
  { constructor; [discriminate | constructor]. }
  destruct (first_matching_item_is_cached "key"
              (answering ([item_other "IR_COIN_EMAMI" (Float64.of_Z 90000000)]
                          ++ item18k "gold" (Float64.of_Z 4250000)
                          :: [item18k "later" (Float64.of_Z 1)])
                 t_2026_02_26_noon)
              st_empty
              [item_other "IR_COIN_EMAMI" (Float64.of_Z 90000000)]
              (item18k "gold" (Float64.of_Z 4250000))
              [item18k "later" (Float64.of_Z 1)]
              eq_refl eq_refl eq_refl eq_refl Hpre eq_refl eq_refl) as [_ H].
  eexists. split; [exact H | reflexivity].
Defined.

Lemma read_after_fetch_serves_fetched_witness :
  StatusCode (handleGold18k (t_2026_02_26_noon + time.Minute) false
                (fst (fetchAndCache "key"
                        (answering [item18k "gold" (Float64.of_Z 4250000)] t_2026_02_26_noon)
                        (st_cached row_unparsable)))) = 200.
Proof.
  rewrite (read_after_fetch_serves_fetched "key"
             (answering [item18k "gold" (Float64.of_Z 4250000)] t_2026_02_26_noon)
             (st_cached row_unparsable)
             {| BrsApiResponse.Gold := [item18k "gold" (Float64.of_Z 4250000)] |}
             (item18k "gold" (Float64.of_Z 4250000))
             (t_2026_02_26_noon + time.Minute)
             eq_refl eq_refl eq_refl eq_refl eq_refl eq_refl).
  reflexivity.
Defined.

Lemma unavailable_iff_no_row_or_store_error_witness :
  StatusCode (handleGold18k t_2026_02_26_noon true (st_cached row_sample)) = 503.
Proof.
  apply (unavailable_iff_no_row_or_store_error t_2026_02_26_noon true (st_cached row_sample)).
  left. reflexivity.
Defined.

Lemma stale_stays_stale_witness :
  stale_of (handleGold18k (t_2026_02_26_noon + 7 * time.Minute) false (st_cached row_sample))
  = Some true.
Proof.
  assert (Hle : t_2026_02_26_noon + 6 * time.Minute <= t_2026_02_26_noon + 7 * time.Minute)
    by (vm_compute; discriminate).
  assert (H6 : stale_of (handleGold18k (t_2026_02_26_noon + 6 * time.Minute) false
                           (st_cached row_sample)) = Some true)
    by (vm_compute; reflexivity).
  exact (stale_stays_stale (st_cached row_sample) row_sample _ _
           (st_cached_lookup row_sample) Hle H6).
Defined.

(** ** Configuration: [envOrDefault], the poll interval, the start *)

(** X11: [envOrDefault] gives the value of the variable exactly when it is
    set and not empty, and the fallback otherwise; so with a fallback that
    is not empty its result is never empty (the port, the interval text and
    the store path always have a value). *)
Theorem envOrDefault_never_empty env key fallback :
  (forall v, env !! key = Some v -> v <> EmptyString ->
             envOrDefault env key fallback = v)
  /\ (env !! key = None \/ env !! key = Some EmptyString ->
      envOrDefault env key fallback = fallback)
  /\ (fallback <> EmptyString -> envOrDefault env key fallback <> EmptyString).
Proof.
  unfold envOrDefault, os_Getenv. split; [|split].
  - intros v -> Hv. cbn. destruct (String.eqb_spec v EmptyString); [contradiction|reflexivity].
  - intros [-> | ->]; reflexivity.
  - intros Hf. destruct (env !! key) as [v|]; cbn.
    + destruct (String.eqb_spec v EmptyString); assumption.
    + exact Hf.
Qed.

Lemma envOrDefault_never_empty_witness :
  envOrDefault (env_with "30") "PORT" "8080" = "8080"
  /\ envOrDefault (env_with "30") "POLL_INTERVAL" "60" = "30".
Proof.
  destruct (envOrDefault_never_empty (env_with "30") "PORT" "8080") as (_ & H & _).
  destruct (envOrDefault_never_empty (env_with "30") "POLL_INTERVAL" "60") as (H' & _ & _).
  split.
  - apply H. left. vm_compute. reflexivity.
  - apply H'; [vm_compute; reflexivity | discriminate].
Defined.

(** [strconv.Atoi] reads back what [%d] prints. *)

Lemma digits_value_acc u acc :
  strconv.digits_value (Z.pos acc) (list_ascii_of_string (NilEmpty.string_of_uint u))
  = Some (Z.pos (Pos.of_uint_acc u acc)).
Proof.
  revert acc. induction u as [|u IH|u IH|u IH|u IH|u IH|u IH|u IH|u IH|u IH|u IH];
    intros acc; cbn [NilEmpty.string_of_uint list_ascii_of_string strconv.digits_value
                     Pos.of_uint_acc];
    [reflexivity|..].
  all: change (digit _) with (Some 0) || change (digit _) with (Some 1)
       || change (digit _) with (Some 2) || change (digit _) with (Some 3)
       || change (digit _) with (Some 4) || change (digit _) with (Some 5)
       || change (digit _) with (Some 6) || change (digit _) with (Some 7)
       || change (digit _) with (Some 8) || change (digit _) with (Some 9).
  all: cbn [mbind option_bind].
  all: match goal with
       | |- strconv.digits_value ?z _ = Some (Z.pos (Pos.of_uint_acc _ ?a)) =>
           replace z with (Z.pos a) by lia
       end; apply IH.
Qed.

Lemma digits_value_uint u :
  strconv.digits_value 0 (list_ascii_of_string (NilEmpty.string_of_uint u))
  = Some (Z.of_N (Pos.of_uint u)).
Proof.
  induction u as [|u IH|u IH|u IH|u IH|u IH|u IH|u IH|u IH|u IH|u IH];
    cbn [NilEmpty.string_of_uint list_ascii_of_string strconv.digits_value Pos.of_uint];
    [reflexivity|..].
  all: change (digit _) with (Some 0) || change (digit _) with (Some 1)
       || change (digit _) with (Some 2) || change (digit _) with (Some 3)
       || change (digit _) with (Some 4) || change (digit _) with (Some 5)
       || change (digit _) with (Some 6) || change (digit _) with (Some 7)
       || change (digit _) with (Some 8) || change (digit _) with (Some 9).
  all: cbn [mbind option_bind].
  - exact IH.
  - apply (digits_value_acc u 1).
  - apply (digits_value_acc u 2).
  - apply (digits_value_acc u 3).
  - apply (digits_value_acc u 4).
  - apply (digits_value_acc u 5).
  - apply (digits_value_acc u 6).
  - apply (digits_value_acc u 7).
  - apply (digits_value_acc u 8).
  - apply (digits_value_acc u 9).
Qed.

Lemma digits_of_positive p :
  exists c cs,
    list_ascii_of_string (NilZero.string_of_uint (Pos.to_uint p)) = c :: cs
    /\ strconv.sign_and_digits (c :: cs) = (false, c :: cs)
    /\ strconv.digits_value 0 (c :: cs) = Some (Z.pos p).
Proof.
  pose proof (DecimalPos.Unsigned.to_uint_nonnil p) as Hnn.
  pose proof (digits_value_uint (Pos.to_uint p)) as Hv.
  rewrite DecimalPos.Unsigned.of_to in Hv. cbn [Z.of_N] in Hv.
  unfold NilZero.string_of_uint.
  destruct (Pos.to_uint p) as [|u|u|u|u|u|u|u|u|u|u]; [contradiction|..];
    cbn [NilEmpty.string_of_uint list_ascii_of_string] in Hv |- *;
    eexists _, _; (split; [reflexivity|]); (split; [reflexivity | exact Hv]).
Qed.

Lemma digit_range c d : digit c = Some d -> 0 <= d <= 9.
Proof.
  unfold digit.
  destruct ((48 <=? Z.of_nat (nat_of_ascii c)) && (Z.of_nat (nat_of_ascii c) <=? 57))
    eqn:E; [|discriminate].
  apply andb_true_iff in E. destruct E as [L U]. intros [= <-].
  apply Z.leb_le in L, U. lia.
Qed.

Lemma digits_value_ge ds : forall acc v,
  0 <= acc -> strconv.digits_value acc ds = Some v -> acc <= v.
Proof.
  induction ds as [|c ds IH]; intros acc v Hacc; cbn [strconv.digits_value].
  - intros [= <-]. lia.
  - destruct (digit c) as [d|] eqn:Ed; [|discriminate]. cbn [mbind option_bind].
    pose proof (digit_range c d Ed). intros Hv.
    apply IH in Hv; lia.
Qed.

(** On digits whose value fits 64 bits, the loop of [ParseUint] gives that
    value. *)
Lemma ParseUint_loop_digits ds : forall n v,
  0 <= n -> strconv.digits_value n ds = Some v -> v <= strconv.maxUint64 ->
  strconv.ParseUint_loop n ds = (v, None).
Proof.
  induction ds as [|c ds IH]; intros n v Hn;
    cbn [strconv.digits_value strconv.ParseUint_loop].
  - intros [= <-] _. reflexivity.
  - destruct (digit c) as [d|] eqn:Ed; [|discriminate]. cbn [mbind option_bind].
    pose proof (digit_range c d Ed) as Hd. intros Hv Hmax.
    pose proof (digits_value_ge ds (10 * n + d) v ltac:(lia) Hv) as Hge.
    unfold strconv.maxUint64 in *.
    change (2 ^ 64 - 1) with 18446744073709551615 in *.
    change (18446744073709551615 `div` 10 + 1) with 1844674407370955162.
    replace (1844674407370955162 <=? n) with false by (symmetry; apply Z.leb_gt; lia).
    replace (18446744073709551615 <? n * 10 + d) with false
      by (symmetry; apply Z.ltb_ge; lia).
    apply IH; [lia | replace (n * 10 + d) with (10 * n + d) by lia; exact Hv | exact Hmax].
Qed.

Lemma wrap64_in_range z : - 2 ^ 63 <= z < 2 ^ 63 -> wrap64 z = z.
Proof.
  unfold wrap64. intros Hz. rewrite Z.mod_small; [lia|].
  change (2 ^ 64) with (2 ^ 63 + 2 ^ 63). lia.
Qed.

Lemma wrap64_cutoff : wrap64 (2 ^ 63) = - 2 ^ 63.
Proof. reflexivity. Qed.

Lemma Atoi_fmt_d n :
  int64_min <= n <= int64_max ->
  strconv.Atoi (fmt_d n) = (n, None) /\ fmt_d n <> EmptyString.
Proof.
  intros Hn. unfold fmt_d, strconv.Atoi.
  unfold int64_min, int64_max in Hn.
  destruct n as [|p|p]; cbn [Z.to_int NilZero.string_of_int].
  - split; [reflexivity | discriminate].
  - destruct (digits_of_positive p) as (c & cs & Hs & Hsign & Hval).
    rewrite Hs. split; [|intros E; rewrite E in Hs; discriminate Hs].
    destruct ((0 <? Z.of_nat (length (c :: cs))) && (Z.of_nat (length (c :: cs)) <? 19)).
    + rewrite Hsign, Hval. reflexivity.
    + unfold strconv.ParseInt, strconv.ParseUint. rewrite Hsign.
      rewrite (ParseUint_loop_digits (c :: cs) 0 (Z.pos p) ltac:(lia) Hval)
        by (unfold strconv.maxUint64; change (2 ^ 64) with (2 ^ 63 + 2 ^ 63); lia).
      cbv beta iota. cbn [negb andb].
      replace (2 ^ 63 <=? Z.pos p) with false by (symmetry; apply Z.leb_gt; lia).
      rewrite wrap64_in_range by lia. reflexivity.
  - destruct (digits_of_positive p) as (c & cs & Hs & Hsign & Hval).
    cbn [list_ascii_of_string]. rewrite Hs. split; [|discriminate].
    destruct ((0 <? Z.of_nat (length ("-"%char :: c :: cs)))
              && (Z.of_nat (length ("-"%char :: c :: cs)) <? 19)).
    + cbn [strconv.sign_and_digits]. rewrite Hval. reflexivity.
    + unfold strconv.ParseInt, strconv.ParseUint. cbn [strconv.sign_and_digits].
      rewrite (ParseUint_loop_digits (c :: cs) 0 (Z.pos p) ltac:(lia) Hval)
        by (unfold strconv.maxUint64; change (2 ^ 64) with (2 ^ 63 + 2 ^ 63); lia).
      cbv beta iota. cbn [negb andb].
      replace (2 ^ 63 <? Z.pos p) with false by (symmetry; apply Z.ltb_ge; lia).
      destruct (Z.eq_dec (Z.pos p) (2 ^ 63)) as [E|NE].
      * rewrite E, wrap64_cutoff.
        replace (Z.neg p) with (- 2 ^ 63) by lia. reflexivity.
      * rewrite (wrap64_in_range (Z.pos p)) by lia.
        rewrite wrap64_in_range by lia. reflexivity.
Qed.

Lemma wrap64_small z : int64_min <= z <= int64_max -> wrap64 z = z.
Proof.
  unfold wrap64, int64_min, int64_max. intros Hz.
  rewrite Z.mod_small; [lia|].
  change (2 ^ 64) with (2 ^ 63 + 2 ^ 63). lia.
Qed.

Section Startup.
Context {RT : GoRuntime}.

Lemma pollInterval_of_decimal env n :
  env !! "POLL_INTERVAL" = Some (fmt_d n) ->
  int64_min <= n <= int64_max ->
  pollInterval_of env = wrap64 (n * time.Second).
Proof.
  intros Henv Hn. destruct (Atoi_fmt_d n Hn) as [HA Hne].
  unfold pollInterval_of, envOrDefault, os_Getenv. rewrite Henv.
  remember (fmt_d n) as s eqn:Hs. cbn.
  destruct (String.eqb_spec s EmptyString); [contradiction|].
  rewrite HA. reflexivity.
Qed.

(** The start of [main] with the credential set and a store that opens,
    up to the ticker. *)
Lemma main_start_reaches_ticker env w st :
  os_Getenv env "BRS_API_KEY" <> EmptyString ->
  main_start env None None w st =
    if NewTicker_panics (pollInterval_of env)
    then Panic "non-positive interval for NewTicker"
    else Polling (pollInterval_of env) (envOrDefault env "PORT" "8080")
           (initial_fetch (os_Getenv env "BRS_API_KEY") w st).
Proof.
  intros Hkey. unfold main_start, initial_fetch.
  destruct (String.eqb_spec (os_Getenv env "BRS_API_KEY") EmptyString); [contradiction|].
  destruct (fetchAndCache _ w _) as [st1 [e|]]; reflexivity.
Qed.

End Startup.

Section StartupProperties.
Context {RT : GoRuntime}.

(** X12: with [POLL_INTERVAL] set to the decimal text of [n], from 1 to
    9223372036, the interval is [n] seconds, and a start with the
    credential set and a store that opens reaches the ticker and polls with
    that interval, on the configured port. *)
Theorem decimal_poll_interval_in_seconds env n w st :
  env !! "POLL_INTERVAL" = Some (fmt_d n) ->
  1 <= n <= 9223372036 ->
  os_Getenv env "BRS_API_KEY" <> EmptyString ->
  pollInterval_of env = n * time.Second
  /\ main_start env None None w st
     = Polling (n * time.Second) (envOrDefault env "PORT" "8080")
         (initial_fetch (os_Getenv env "BRS_API_KEY") w st).
Proof.
  intros Henv Hn Hkey.
  assert (P : pollInterval_of env = n * time.Second).
  { rewrite (pollInterval_of_decimal env n Henv) by (unfold int64_min, int64_max; lia).
    apply wrap64_small. unfold int64_min, int64_max, time.Second, time.Nanosecond. lia. }
  split; [exact P|].
  rewrite (main_start_reaches_ticker env w st Hkey), P.
  replace (NewTicker_panics (n * time.Second)) with false; [reflexivity|].
  symmetry. apply Z.leb_gt. unfold time.Second, time.Nanosecond. lia.
Qed.

(** X13: with [POLL_INTERVAL] set to the decimal text of an integer that
    is zero or negative (down to -9223372036), or so large that the
    multiplication by [time.Second] overflows int64 into a negative
    duration (9223372037 to 18446744073), a start that reaches the ticker
    panics. *)
Theorem nonpositive_or_overflowing_interval_panics env n w st :
  env !! "POLL_INTERVAL" = Some (fmt_d n) ->
  - 9223372036 <= n <= 0 \/ 9223372037 <= n <= 18446744073 ->
  os_Getenv env "BRS_API_KEY" <> EmptyString ->
  pollInterval_of env <= 0
  /\ main_start env None None w st = Panic "non-positive interval for NewTicker".
Proof.
  intros Henv Hn Hkey.
  assert (P : pollInterval_of env <= 0).
  { rewrite (pollInterval_of_decimal env n Henv) by (unfold int64_min, int64_max; lia).
    destruct Hn as [Hn|Hn].
    - rewrite wrap64_small;
        unfold int64_min, int64_max, time.Second, time.Nanosecond; lia.
    - unfold wrap64, time.Second, time.Nanosecond.
      change (2 ^ 63) with 9223372036854775808.
      change (2 ^ 64) with 18446744073709551616.
      Z.div_mod_to_equations. lia. }
  split; [exact P|].
  rewrite (main_start_reaches_ticker env w st Hkey).
  replace (NewTicker_panics (pollInterval_of env)) with true; [reflexivity|].
  symmetry. apply Z.leb_le. exact P.
Qed.


(** X15: a failed initial fetch is not fatal: with the credential set, a
    store that opens and a positive interval, the start goes on to poll;
    the failure is logged with its text, the table is the one the start
    found, and the mutex is free for the first tick. *)
Theorem failed_initial_fetch_not_fatal env w st e :
  os_Getenv env "BRS_API_KEY" <> EmptyString ->
  0 < pollInterval_of env ->
  pollMu st = false ->
  snd (fetchAndCache (os_Getenv env "BRS_API_KEY") w
         (emit (EvLog "[poller] Initial fetch...") st)) = Some e ->
  exists st',
    main_start env None None w st
    = Polling (pollInterval_of env) (envOrDefault env "PORT" "8080") st'
    /\ database st' = database st
    /\ pollMu st' = false
    /\ In (EvLog ("[poller] Initial fetch failed: " ++ error_text e
                  ++ " (will retry on next tick)")) (trace st').
Proof.
  intros Hkey Hpos Hmu Herr.
  rewrite (main_start_reaches_ticker env w st Hkey).
  replace (NewTicker_panics (pollInterval_of env)) with false
    by (symmetry; apply Z.leb_gt; exact Hpos).
  eexists. split; [reflexivity|].
  unfold initial_fetch.
  pose proof (fetchAndCache_error_keeps (os_Getenv env "BRS_API_KEY") w
                (emit (EvLog "[poller] Initial fetch...") st) e Herr) as Hdb.
  pose proof (fetchAndCache_releases (os_Getenv env "BRS_API_KEY") w
                (emit (EvLog "[poller] Initial fetch...") st) Hmu) as Hrel.
  destruct (fetchAndCache _ w _) as [st1 err]. cbn [fst snd] in *. subst err.
  cbn [database pollMu trace emit]. split; [exact Hdb|]. split; [exact Hrel|].
  apply in_or_app. right. left. reflexivity.
Qed.

End StartupProperties.

Lemma decimal_poll_interval_in_seconds_witness :
  pollInterval_of (env_with "30") = 30 * time.Second.
Proof.
  assert (L : env_with "30" !! "POLL_INTERVAL" = Some (fmt_d 30)) by (vm_compute; reflexivity).
  assert (B : 1 <= 30 <= 9223372036) by lia.
  assert (K : os_Getenv (env_with "30") "BRS_API_KEY" <> EmptyString)
    by (vm_compute; discriminate).
  exact (proj1 (decimal_poll_interval_in_seconds (env_with "30") 30
                  (unreachable t_2026_02_26_noon) st_empty L B K)).
Defined.

Lemma nonpositive_or_overflowing_interval_panics_witness :
  main_start (env_with "-5") None None (unreachable t_2026_02_26_noon) st_empty
  = Panic "non-positive interval for NewTicker"
  /\ main_start (env_with "9223372037") None None (unreachable t_2026_02_26_noon) st_empty
     = Panic "non-positive interval for NewTicker".
Proof.
  assert (L1 : env_with "-5" !! "POLL_INTERVAL" = Some (fmt_d (-5)))
    by (vm_compute; reflexivity).
  assert (L2 : env_with "9223372037" !! "POLL_INTERVAL" = Some (fmt_d 9223372037))
    by (vm_compute; reflexivity).
  assert (B1 : - 9223372036 <= -5 <= 0 \/ 9223372037 <= -5 <= 18446744073) by lia.
  assert (B2 : - 9223372036 <= 9223372037 <= 0 \/ 9223372037 <= 9223372037 <= 18446744073)
    by lia.
  assert (K1 : os_Getenv (env_with "-5") "BRS_API_KEY" <> EmptyString)
    by (vm_compute; discriminate).
  assert (K2 : os_Getenv (env_with "9223372037") "BRS_API_KEY" <> EmptyString)
    by (vm_compute; discriminate).
  split.
  - exact (proj2 (nonpositive_or_overflowing_interval_panics (env_with "-5") (-5)
                    (unreachable t_2026_02_26_noon) st_empty L1 B1 K1)).
  - exact (proj2 (nonpositive_or_overflowing_interval_panics (env_with "9223372037")
                    9223372037 (unreachable t_2026_02_26_noon) st_empty L2 B2 K2)).
Defined.


Lemma failed_initial_fetch_not_fatal_witness :
  exists st',
    main_start (env_with "30") None None (unreachable t_2026_02_26_noon)
      (st_cached row_sample)
    = Polling (30 * time.Second) "8080" st'
    /\ database st' = database (st_cached row_sample).
Proof.
  assert (K : os_Getenv (env_with "30") "BRS_API_KEY" <> EmptyString)
    by (vm_compute; discriminate).
  assert (P : 0 < pollInterval_of (env_with "30")) by (vm_compute; reflexivity).
  destruct (failed_initial_fetch_not_fatal (env_with "30") (unreachable t_2026_02_26_noon)
              (st_cached row_sample) (ErrHTTPRequest "timeout") K P eq_refl eq_refl)
    as (st' & H1 & H2 & _).
  exists st'. split; [exact H1 | exact H2].
Defined.

(** ** The conversion outside the range of the prices one expects *)

Lemma trunc_opp x : trunc_float64 (SFopp x) = option_map Z.opp (trunc_float64 x).
Proof.
  destruct x as [s|s| |s m e]; try reflexivity.
  cbn. f_equal. destruct s; cbn; lia.
Qed.

Lemma trunc_at_least_one p :
  valid p = true ->
  leb one p = true ->
  ltb (mul p ten) two63 = true ->
  exists z, trunc_float64 (mul p ten) = Some z /\ 1 <= z < 2 ^ 63.
Proof.
  intros Hv Hle Hlt.
  destruct (valid_ge_one p Hv Hle) as [-> | (m & e & -> & Dm & He)];
    [discriminate Hlt|].
  destruct (mul_ten_normal false m e Dm) as [Hinf | (m' & e' & Hfin & Dm' & He')];
    [lia | rewrite Hinf in Hlt; discriminate Hlt |].
  rewrite Hfin in Hlt |- *.
  destruct (lt_two63 false m' e' Dm' Hlt) as [Hs | He10]; [discriminate Hs|].
  apply trunc_normal_positive; [exact Dm' | lia].
Qed.

(** The opposite of a price of at least one converts to the opposite. *)
Lemma convert_opposite indefinite q :
  valid q = true ->
  leb one q = true ->
  ltb (mul q ten) two63 = true ->
  eqb (SFopp q) zero = false
  /\ int64_of_float64 indefinite (mul (SFopp q) ten)
     = - int64_of_float64 indefinite (mul q ten)
  /\ int64_of_float64 indefinite (mul (SFopp q) ten) <= -1.
Proof.
  intros Hv Hle Hlt.
  destruct (trunc_at_least_one q Hv Hle Hlt) as (z & Hz & Bz).
  assert (Hnz : eqb (SFopp q) zero = false).
  { destruct (valid_ge_one q Hv Hle) as [-> | (m & e & -> & _)]; reflexivity. }
  assert (I1 : in_int64 z = true).
  { unfold in_int64, int64_min, int64_max.
    apply andb_true_intro. split; apply Z.leb_le; lia. }
  assert (I2 : in_int64 (- z) = true).
  { unfold in_int64, int64_min, int64_max.
    apply andb_true_intro. split; apply Z.leb_le; lia. }
  assert (Hneg : int64_of_float64 indefinite (mul (SFopp q) ten) = - z).
  { unfold int64_of_float64. rewrite mul_ten_opp, trunc_opp, Hz. cbn [option_map].
    rewrite I2. reflexivity. }
  assert (Hposv : int64_of_float64 indefinite (mul q ten) = z).
  { unfold int64_of_float64. rewrite Hz, I1. reflexivity. }
  split; [exact Hnz|]. rewrite Hneg, Hposv. split; [reflexivity | lia].
Qed.

Section UnexpectedPrices.
Context {RT : GoRuntime}.

(** X16: every positive price whose tenfold is below 1 (any price under a
    tenth of a toman) passes the check and is cached as 0. *)
Theorem price_below_a_tenth_cached_as_zero apiKey w st apiResp item :
  pollMu st = false ->
  NewRequest_err w = None ->
  Do w = DoResponse http_StatusOK (DecodeOk apiResp) ->
  find_gold18k (BrsApiResponse.Gold apiResp) = Some item ->
  Exec_err w = None ->
  Float64.ltb Float64.zero (BrsApiItem.Price item) = true ->
  Float64.ltb (Float64.mul (BrsApiItem.Price item) ten) one = true ->
  snd (fetchAndCache apiKey w st) = None
  /\ exists r, database (fst (fetchAndCache apiKey w st)) !! "gold_18k" = Some r
               /\ price_rial r = 0.
Proof.
  intros Hmu Hreq Hdo Hfind Hexec Hpos Hlt.
  destruct (convert_below_one int64_indefinite _ Hpos Hlt) as [Hnz Hconv].
  rewrite (fetchAndCache_accepts apiKey w st apiResp item) by assumption.
  split; [reflexivity|]. eexists. cbn [fst]. split.
  - unfold written. cbn [database]. apply lookup_insert_eq.
  - cbn [price_rial]. exact Hconv.
Qed.

(** X17: the opposite of every price of at least 1 (whose tenfold is below
    2^63) passes the check too, and is cached as the opposite of what the
    price itself would give: a strictly negative [price_rial]. *)
Theorem negative_price_cached_negative apiKey w st apiResp item q :
  pollMu st = false ->
  NewRequest_err w = None ->
  Do w = DoResponse http_StatusOK (DecodeOk apiResp) ->
  find_gold18k (BrsApiResponse.Gold apiResp) = Some item ->
  Exec_err w = None ->
  BrsApiItem.Price item = SFopp q ->
  Float64.valid q = true ->
  Float64.leb one q = true ->
  Float64.ltb (Float64.mul q ten) two63 = true ->
  snd (fetchAndCache apiKey w st) = None
  /\ exists r, database (fst (fetchAndCache apiKey w st)) !! "gold_18k" = Some r
               /\ price_rial r = - int64_of_float64 int64_indefinite (Float64.mul q ten)
               /\ price_rial r <= -1.
Proof.
  intros Hmu Hreq Hdo Hfind Hexec Hprice Hv Hle Hlt.
  destruct (convert_opposite int64_indefinite q Hv Hle Hlt) as (Hnz & Hconv & Hneg).
  rewrite <- Hprice in Hnz, Hconv, Hneg.
  rewrite (fetchAndCache_accepts apiKey w st apiResp item) by assumption.
  split; [reflexivity|]. eexists. cbn [fst]. split; [|split].
  - unfold written. cbn [database]. apply lookup_insert_eq.
  - cbn [price_rial]. exact Hconv.
  - cbn [price_rial]. exact Hneg.
Qed.

End UnexpectedPrices.

Lemma price_below_a_tenth_cached_as_zero_witness :
  exists r,
    database (fst (fetchAndCache "key"
                     (answering [item18k "gold" price_0_05] t_2026_02_26_noon)
                     (st_cached row_sample))) !! "gold_18k" = Some r
    /\ price_rial r = 0.
Proof.
  exact (proj2 (price_below_a_tenth_cached_as_zero "key"
                  (answering [item18k "gold" price_0_05] t_2026_02_26_noon)
                  (st_cached row_sample)
                  {| BrsApiResponse.Gold := [item18k "gold" price_0_05] |}
                  (item18k "gold" price_0_05)
                  eq_refl eq_refl eq_refl eq_refl eq_refl eq_refl eq_refl)).
Defined.

Lemma negative_price_cached_negative_witness :
  exists r,
    database (fst (fetchAndCache "key"
                     (answering [item18k "gold" (SFopp (Float64.of_Z 4250000))]
                        t_2026_02_26_noon)
                     (st_cached row_sample))) !! "gold_18k" = Some r
    /\ price_rial r <= -1.
Proof.
  destruct (negative_price_cached_negative "key"
              (answering [item18k "gold" (SFopp (Float64.of_Z 4250000))] t_2026_02_26_noon)
              (st_cached row_sample)
              {| BrsApiResponse.Gold := [item18k "gold" (SFopp (Float64.of_Z 4250000))] |}
              (item18k "gold" (SFopp (Float64.of_Z 4250000)))
              (Float64.of_Z 4250000)
              eq_refl eq_refl eq_refl eq_refl eq_refl eq_refl eq_refl eq_refl eq_refl)
    as (_ & r & Hr & _ & Hneg).
  exists r. split; [exact Hr | exact Hneg].
Defined.

(** ** The timestamp: written, read back, and the freshness it gives *)

(** The tests of a goal, each decided both ways. *)
Ltac split_tests :=
  repeat match goal with
         | |- context [?a <? ?b] => destruct (Z.ltb_spec a b)
         | |- context [?a <=? ?b] => destruct (Z.leb_spec a b)
         | |- context [?a =? ?b] => destruct (Z.eqb_spec a b)
         end.

Lemma civil_round_trip d :
  0 <= d < 3652059 ->
  let '(year, month, day) := RFC3339.civil_of_days d in
  RFC3339.days_of_civil year month day = d
  /\ 1 <= year <= 9999 /\ 1 <= month <= 12
  /\ 1 <= day <= RFC3339.daysIn month year.
Proof.
  intros Hd. unfold RFC3339.civil_of_days, RFC3339.days_of_civil, RFC3339.daysIn, RFC3339.isLeap.
  cbv zeta.
  set (z := d + 306).
  set (era := z / 146097).
  set (doe := z mod 146097).
  set (yoe := (doe - doe / 1460 + doe / 36524 - doe / 146096) / 365).
  set (doy := doe - (365 * yoe + yoe / 4 - yoe / 100)).
  set (mp := (5 * doy + 2) / 153).
  split_tests; cbn [andb orb negb];
    unfold mp, doy, yoe, doe, era, z in *; clear mp doy yoe doe era z;
    (Z.div_mod_to_equations; lia).
Qed.

Lemma digit_of_digit_char n : digit (RFC3339.digit_char n) = Some (n mod 10).
Proof.
  unfold digit, RFC3339.digit_char.
  pose proof (Z.mod_pos_bound n 10 ltac:(lia)) as B.
  rewrite nat_ascii_embedding by lia.
  rewrite Z2Nat.id by lia.
  replace (48 <=? 48 + n mod 10) with true by (symmetry; apply Z.leb_le; lia).
  replace (48 + n mod 10 <=? 57) with true by (symmetry; apply Z.leb_le; lia).
  cbn [andb]. f_equal. lia.
Qed.

Lemma uint_from_snoc w acc s :
  RFC3339.uint_from (S w) acc s
  = match RFC3339.uint_from w acc s with
    | Some (a, c :: rest) =>
        match digit c with Some d => Some (10 * a + d, rest) | None => None end
    | _ => None
    end.
Proof.
  revert acc s. induction w as [|w IH]; intros acc s.
  - cbn. destruct s as [|c rest]; [reflexivity|]. destruct (digit c); reflexivity.
  - destruct s as [|c rest]; [reflexivity|].
    change (RFC3339.uint_from (S (S w)) acc (c :: rest))
      with (d ← digit c; RFC3339.uint_from (S w) (10 * acc + d) rest).
    change (RFC3339.uint_from (S w) acc (c :: rest))
      with (d ← digit c; RFC3339.uint_from w (10 * acc + d) rest).
    destruct (digit c) as [d|]; cbn [mbind option_bind]; [|reflexivity].
    apply IH.
Qed.

Lemma uint_from_pad w n acc tail :
  RFC3339.uint_from w acc (list_ascii_of_string (RFC3339.pad w n tail))
  = Some (acc * 10 ^ Z.of_nat w + n mod 10 ^ Z.of_nat w, list_ascii_of_string tail).
Proof.
  revert n tail. induction w as [|w IH]; intros n tail.
  - cbn. rewrite Z.mod_1_r. f_equal. f_equal. lia.
  - rewrite uint_from_snoc. cbn [RFC3339.pad]. rewrite IH.
    cbn [list_ascii_of_string]. rewrite digit_of_digit_char.
    f_equal. f_equal.
    rewrite Nat2Z.inj_succ, Z.pow_succ_r by lia.
    assert (P : 0 < 10 ^ Z.of_nat w) by (apply Z.pow_pos_nonneg; lia).
    rewrite (Z.rem_mul_r n 10 (10 ^ Z.of_nat w)) by lia. lia.
Qed.

Lemma parseUint_pad w lo hi n tail :
  lo <= n <= hi -> 0 <= n < 10 ^ Z.of_nat w ->
  RFC3339.parseUint w lo hi (list_ascii_of_string (RFC3339.pad w n tail))
  = Some (n, list_ascii_of_string tail).
Proof.
  intros Hr Hn. unfold RFC3339.parseUint. rewrite uint_from_pad.
  cbn [mbind option_bind]. rewrite Z.mod_small by lia.
  replace (0 * 10 ^ Z.of_nat w + n) with n by lia.
  replace (lo <=? n) with true by (symmetry; apply Z.leb_le; lia).
  replace (n <=? hi) with true by (symmetry; apply Z.leb_le; lia).
  reflexivity.
Qed.

Lemma chars_separator c s :
  list_ascii_of_string (String c EmptyString ++ s) = c :: list_ascii_of_string s.
Proof. reflexivity. Qed.

(** The strict reading of the text written for an instant of the years
    0001 to 9999 gives that instant without its fraction of a second. *)
Lemma strict_parse_of_written t :
  0 <= t < 3652059 * 86400 * time.Second ->
  RFC3339.parseRFC3339 (RFC3339.Format t) = Some (t - t mod time.Second).
Proof.
  intros Ht.
  unfold RFC3339.Format, RFC3339.parseRFC3339, RFC3339.secondsPerDay.
  set (s := t / time.Second).
  assert (Hs : 0 <= s < 3652059 * 86400).
  { unfold s, time.Second, time.Nanosecond in *. Z.div_mod_to_equations. lia. }
  set (days := s / 86400).
  set (sod := s mod 86400).
  assert (Hdays : 0 <= days < 3652059) by (unfold days; Z.div_mod_to_equations; lia).
  assert (Hsod : 0 <= sod < 86400) by (unfold sod; Z.div_mod_to_equations; lia).
  pose proof (civil_round_trip days Hdays) as Hciv.
  destruct (RFC3339.civil_of_days days) as [[year month] day].
  destruct Hciv as (Hback & Hy & Hm & Hd).
  assert (Hd31 : day <= 31).
  { unfold RFC3339.daysIn in Hd.
    destruct (month =? 2); [destruct (RFC3339.isLeap year); lia|].
    destruct ((month =? 4) || (month =? 6) || (month =? 9) || (month =? 11)); lia. }
  rewrite (parseUint_pad 4 0 9999 year) by (cbn; lia).
  rewrite chars_separator.
  cbn [mbind option_bind RFC3339.expect Ascii.eqb Bool.eqb].
  rewrite (parseUint_pad 2 1 12 month) by (cbn; lia).
  rewrite chars_separator.
  cbn [mbind option_bind RFC3339.expect Ascii.eqb Bool.eqb].
  rewrite (parseUint_pad 2 1 (RFC3339.daysIn month year) day) by (cbn; lia).
  rewrite chars_separator.
  cbn [mbind option_bind RFC3339.expect Ascii.eqb Bool.eqb].
  rewrite (parseUint_pad 2 0 23 (sod / 3600)) by (cbn; Z.div_mod_to_equations; lia).
  rewrite chars_separator.
  cbn [mbind option_bind RFC3339.expect Ascii.eqb Bool.eqb].
  rewrite (parseUint_pad 2 0 59 (sod / 60 mod 60)) by (cbn; Z.div_mod_to_equations; lia).
  rewrite chars_separator.
  cbn [mbind option_bind RFC3339.expect Ascii.eqb Bool.eqb].
  rewrite (parseUint_pad 2 0 59 (sod mod 60)) by (cbn; Z.div_mod_to_equations; lia).
  cbn [mbind option_bind list_ascii_of_string RFC3339.parseFraction RFC3339.parseZone].
  rewrite Hback. f_equal.
  unfold sod, days, s, time.Second, time.Nanosecond in *.
  Z.div_mod_to_equations. lia.
Qed.

(** X18: with the RFC 3339 layout of the concrete runtime, the text
    written for an instant of the years 0001 to 9999 always parses, and
    reads back as that instant without its fraction of a second: the read
    of a row the service wrote never falls back to the zero time. *)
Theorem written_timestamp_parses_back t :
  0 <= t < 3652059 * 86400 * time.Second ->
  time_Parse_RFC3339 (time_Format_RFC3339 t) = Some (t - t mod time.Second).
Proof.
  intros Ht. cbn [time_Parse_RFC3339 time_Format_RFC3339 amd64_runtime].
  unfold RFC3339.Parse. rewrite (strict_parse_of_written t Ht). reflexivity.
Qed.

Lemma written_timestamp_parses_back_witness :
  time_Parse_RFC3339 (time_Format_RFC3339 (t_2026_02_26_noon + 999999999))
  = Some t_2026_02_26_noon.
Proof.
  rewrite written_timestamp_parses_back by (vm_compute; split; [discriminate | reflexivity]).
  vm_compute. reflexivity.
Defined.

Section Freshness.
Context {RT : GoRuntime}.

(** X19: when the text of the fetch instant reads back as an instant at
    most a second earlier, a read after a successful fetch reports the row
    fresh for at least the threshold less one second, and stale once more
    than the threshold has passed: fresh right after the fetch, stale after
    five minutes without a successful fetch. *)
Theorem fresh_after_fetch apiKey w st apiResp item t' now :
  pollMu st = false ->
  NewRequest_err w = None ->
  Do w = DoResponse http_StatusOK (DecodeOk apiResp) ->
  find_gold18k (BrsApiResponse.Gold apiResp) = Some item ->
  Float64.eqb (BrsApiItem.Price item) Float64.zero = false ->
  Exec_err w = None ->
  time_Parse_RFC3339 (time_Format_RFC3339 (Now w)) = Some t' ->
  Now w - time.Second < t' <= Now w ->
  (now - Now w <= staleThreshold - time.Second ->
   stale_of (handleGold18k now false (fst (fetchAndCache apiKey w st))) = Some false)
  /\ (staleThreshold < now - Now w ->
      stale_of (handleGold18k now false (fst (fetchAndCache apiKey w st))) = Some true).
Proof.
  intros Hmu Hreq Hdo Hfind Hz Hexec Hparse Ht'.
  rewrite (fetchAndCache_accepts apiKey w st apiResp item) by assumption.
  cbn [fst].
  rewrite (handleGold18k_row now _
             {| name := if String.eqb (BrsApiItem.Name item) EmptyString
                        then fallback_name else BrsApiItem.Name item;
                price_rial := int64_of_float64 int64_indefinite
                                (Float64.mul (BrsApiItem.Price item) ten);
                fetched_at := time_Format_RFC3339 (Now w) |})
    by (unfold written; cbn [database]; apply lookup_insert_eq).
  cbn [fetched_at]. rewrite Hparse. unfold stale_of. cbn.
  split; intros H; f_equal.
  - apply Z.ltb_ge. lia.
  - apply Z.ltb_lt. lia.
Qed.

End Freshness.

Lemma fresh_after_fetch_witness :
  stale_of (handleGold18k (t_2026_02_26_noon + 4 * time.Minute) false
              (fst (fetchAndCache "key"
                      (answering [item18k "gold" (Float64.of_Z 4250000)]
                         (t_2026_02_26_noon + 500000000))
                      st_empty))) = Some false.
Proof.
  assert (P : time_Parse_RFC3339 (time_Format_RFC3339 (t_2026_02_26_noon + 500000000))
              = Some t_2026_02_26_noon) by (vm_compute; reflexivity).
  assert (B : t_2026_02_26_noon + 500000000 - time.Second < t_2026_02_26_noon
              <= t_2026_02_26_noon + 500000000)
    by (vm_compute; split; [reflexivity | discriminate]).
  apply (proj1 (fresh_after_fetch "key"
                  (answering [item18k "gold" (Float64.of_Z 4250000)]
                     (t_2026_02_26_noon + 500000000))
                  st_empty
                  {| BrsApiResponse.Gold := [item18k "gold" (Float64.of_Z 4250000)] |}
                  (item18k "gold" (Float64.of_Z 4250000))
                  t_2026_02_26_noon (t_2026_02_26_noon + 4 * time.Minute)
                  eq_refl eq_refl eq_refl eq_refl eq_refl eq_refl P B)).
  vm_compute. discriminate.
Defined.

(** ** The overlap guard never stays shut *)

Section GuardReleased.
Context {RT : GoRuntime}.

(** X20: however calls of [fetchAndCache] overlap, the mutex is held
    exactly while one call is between its request and its return: a call is
    skipped only when another one is really in flight, and once none is, the
    next call goes through to its request (or fails to create it). *)
Theorem skipped_only_while_in_flight apiKey d s :
  rtc (sys_step apiKey) (sys_init d) s ->
  (pollMu (sys_state s) = true <-> in_flight s = 1%nat)
  /\ (forall w st',
        fetchAndCache_enter apiKey w (sys_state s) = (st', Returned None) ->
        in_flight s = 1%nat /\ st' = emit (EvLog skip_line) (sys_state s))
  /\ (in_flight s = 0%nat ->
      forall w, NewRequest_err w = None ->
        fetchAndCache_enter apiKey w (sys_state s)
        = (emit (EvHTTPGet (api_url apiKey) user_agent) (set_pollMu true (sys_state s)),
           AwaitingDo)).
Proof.
  intros Hr. pose proof (reachable_guarded apiKey d s Hr) as G. unfold guarded in G.
  split; [|split].
  - destruct (pollMu (sys_state s)); rewrite G; split; congruence.
  - intros w st' E. unfold fetchAndCache_enter in E.
    destruct (pollMu (sys_state s)).
    + injection E as <-. split; [exact G | reflexivity].
    + destruct (NewRequest_err w); discriminate E.
  - intros H0 w Hreq. unfold fetchAndCache_enter.
    destruct (pollMu (sys_state s)); [congruence|].
    rewrite Hreq. reflexivity.
Qed.

End GuardReleased.

Lemma skipped_only_while_in_flight_witness :
  in_flight sys_fetching = 1%nat
  /\ fst (fetchAndCache_enter "key" (unreachable t_2026_02_26_noon) (sys_state sys_fetching))
     = emit (EvLog skip_line) (sys_state sys_fetching).
Proof.
  assert (R : rtc (sys_step "key") (sys_init ∅) sys_fetching).
  { apply rtc_once.
    exact (step_blocked "key" (unreachable t_2026_02_26_noon) (sys_init ∅) _ eq_refl). }
  destruct (skipped_only_while_in_flight "key" ∅ sys_fetching R) as (_ & H & _).
  destruct (H (unreachable t_2026_02_26_noon) _ eq_refl) as [H1 H2].
  split; [exact H1 | reflexivity].
Defined.
